(** * The Ghost demo stack of quickstart-eks-cdk-python

    A shallow embedding of [demo-apps/ghost-cdk/ghost_example.py].  The
    script builds a tree of CDK constructs (a database, security groups,
    Kubernetes manifests, ...) and records ordering edges between some of
    them.  The CDK library itself is an external collaborator: each library
    call is modelled by what it records in the construct tree, in the order
    the script performs the calls.  A run stops at the first exception:
    those of the script's own Python (a missing key, a missing index, a
    file that does not load) and those of the library calls the script
    runs into (a database in a VPC without private subnets, the security
    group of a cluster imported without one, a manifest that is not a
    mapping, an environment the engine cannot parse).  Strings are Python
    strings in their UTF-8 encoding. *)

From Stdlib Require Import ZArith Ascii String.
From stdpp Require Import base option strings list gmap.

Open Scope string_scope.
Open Scope Z_scope.

(** ** Python values *)

(** Dictionaries, lists and scalars as the script writes them.  [T] is the
    type of late-bound CDK attributes that may occur inside a value; a
    document loaded from a file or from the CDK context has none. *)
#[warnings="-register-all"]
Inductive value (T : Type) : Type :=
| VNone
| VBool (b : bool)
| VInt (n : Z)
| VStr (s : string)
| VList (l : list (value T))
| VDict (d : list (string * value T))
| VTok (t : T).

Arguments VNone {T}.
Arguments VBool {T} b.
Arguments VInt {T} n.
Arguments VStr {T} s.
Arguments VList {T} l.
Arguments VDict {T} d.
Arguments VTok {T} t.

(** A security group the script can name. *)
Inductive SecurityGroupRef : Type :=
| SG (id : string)            (* ec2.SecurityGroup(self, id, ...) *)
| cluster_security_group      (* eks_cluster.cluster_security_group *)
| kubectl_security_group.     (* eks_cluster.kubectl_security_group *)

(** Attributes whose value is only known at deployment. *)
Inductive Token : Type :=
| import_value (export_name : string)     (* core.Fn.import_value(..) *)
| security_group_id (sg : SecurityGroupRef)
| secret_name (db : string).              (* <db>.secret.secret_name *)

(** Plain data: context values and parsed YAML documents. *)
Abbreviation json := (value Empty_set).
Abbreviation pyval := (value Token).

Fixpoint lift (v : json) : pyval :=
  match v with
  | VNone => VNone
  | VBool b => VBool b
  | VInt n => VInt n
  | VStr s => VStr s
  | VList l => VList (map lift l)
  | VDict d => VDict (map (fun kv => (fst kv, lift (snd kv))) d)
  | VTok t => match t with end
  end.

Definition SecurityGroupRef_eqb (a b : SecurityGroupRef) : bool :=
  match a, b with
  | SG x, SG y => String.eqb x y
  | cluster_security_group, cluster_security_group => true
  | kubectl_security_group, kubectl_security_group => true
  | _, _ => false
  end.

Definition Token_eqb (a b : Token) : bool :=
  match a, b with
  | import_value x, import_value y => String.eqb x y
  | security_group_id x, security_group_id y => SecurityGroupRef_eqb x y
  | secret_name x, secret_name y => String.eqb x y
  | _, _ => false
  end.

(** [mentions t v]: the token [t] occurs somewhere inside [v]. *)
Fixpoint mentions (t : Token) (v : pyval) : bool :=
  match v with
  | VTok t' => Token_eqb t t'
  | VList l => existsb (mentions t) l
  | VDict d => existsb (fun kv => mentions t (snd kv)) d
  | _ => false
  end.

(** Python's [d[k]] on a dictionary literal, [None] standing for a
    missing key or a value that is not a dictionary. *)
Fixpoint assoc {A : Type} (k : string) (d : list (string * A)) : option A :=
  match d with
  | [] => None
  | (k', v) :: d' => if String.eqb k k' then Some v else assoc k d'
  end.

Definition item {T : Type} (k : string) (v : value T) : option (value T) :=
  match v with
  | VDict d => assoc k d
  | _ => None
  end.

Fixpoint path {T : Type} (ks : list string) (v : value T) : option (value T) :=
  match ks with
  | [] => Some v
  | k :: ks' => match item k v with
                | Some v' => path ks' v'
                | None => None
                end
  end.

(** [x == "True"] for an arbitrary Python object [x]: only the string
    ["True"] compares equal to the literal. *)
Definition eq_True {T : Type} (x : value T) : bool :=
  match x with
  | VStr s => String.eqb s "True"
  | _ => false
  end.

(** ** Constructs *)

Inductive RemovalPolicy : Type := DESTROY | RETAIN | SNAPSHOT.

Inductive MysqlEngineVersion : Type :=
| VER_5_7_34 | VER_8_0_23 | VER_8_0_25 | VER_8_0_26.

Inductive DatabaseInstanceEngine : Type :=
| mysql (version : MysqlEngineVersion).

Inductive Credentials : Type :=
| from_username (username : string).

Inductive InstanceClass : Type := BURSTABLE2 | BURSTABLE3 | STANDARD5.
Inductive InstanceSize : Type := NANO | MICRO | SMALL | MEDIUM | LARGE.

Inductive InstanceType : Type :=
| InstanceType_of (cls : InstanceClass) (size : InstanceSize).

Inductive Port : Type :=
| tcp (port : Z).

Record Environment : Type := mkEnvironment {
  env_account : string;
  env_region : string
}.

(** The keyword arguments of [rds.DatabaseInstance]. *)
Record DatabaseInstanceProps : Type := {
  deletion_protection : bool;
  removal_policy : RemovalPolicy;
  multi_az : bool;
  allocated_storage : Z;
  engine : DatabaseInstanceEngine;
  credentials : Credentials;
  database_name : string;
  db_vpc : string;
  instance_type : InstanceType;
  security_groups : list SecurityGroupRef
}.

(** The keyword arguments of [eks.Cluster.from_cluster_attributes];
    [cluster_security_group_id] is the one the script does not pass. *)
Record ClusterAttributes : Type := {
  cluster_name : Token;
  open_id_connect_provider : string;
  kubectl_role_arn : Token;
  cluster_vpc : string;
  kubectl_security_group_id : Token;
  kubectl_private_subnet_ids : list string;
  cluster_security_group_id : option Token
}.

(** The keyword arguments of [eks_cluster.add_helm_chart]. *)
Record HelmChartProps : Type := {
  chart : string;
  version : string;
  repository : string;
  chart_namespace : string;
  release : string;
  values : pyval
}.

(** One node of the construct tree, named by its construct id. *)
Inductive Construct : Type :=
| Vpc_from_lookup (id : string) (vpc_name : string)
| SecurityGroup (id : string) (vpc : string) (allow_all_outbound : bool)
| DatabaseInstance (id : string) (props : DatabaseInstanceProps)
| OpenIdConnectProvider_import (id : string) (arn : Token)
| Cluster_import (id : string) (attrs : ClusterAttributes)
| ServiceAccount (id : string) (name : string) (namespace : string)
| HelmChart (id : string) (props : HelmChartProps)
| KubernetesManifest (id : string) (manifest : pyval).

Definition construct_id (c : Construct) : string :=
  match c with
  | Vpc_from_lookup id _ | SecurityGroup id _ _
  | DatabaseInstance id _ | OpenIdConnectProvider_import id _
  | Cluster_import id _ | ServiceAccount id _ _ | HelmChart id _
  | KubernetesManifest id _ => id
  end.

(** [sg.connections.allow_from(other=.., port_range=..)] *)
Record SecurityRule : Type := mkRule {
  rule_target : SecurityGroupRef;
  rule_source : SecurityGroupRef;
  rule_port : Port
}.

(** The tree under construction: the stack registered under the app (its
    id and environment), the stack's constructs in creation order, the
    ingress rules, the policy statements attached to service accounts, the
    [node.add_dependency] edges (dependent first), and whether
    [app.synth()] has been reached. *)
Record App : Type := mkApp {
  stack : option (string * Environment);
  children : list Construct;
  rules : list SecurityRule;
  policies : list (string * pyval);
  dependencies : list (string * string);
  synthesized : bool
}.

Definition empty_app : App := mkApp None [] [] [] [] false.

(** ** Exceptions and the run monad *)

(** Python exceptions.  The file errors carry the file name; a
    [RuntimeError] of the library carries the name of the call that raised
    it (the message itself is the library's). *)
Inductive exn : Type :=
| AttributeError
| KeyError (key : string)
| IndexError
| NameError (name : string)
| TypeError
| RuntimeError (call : string)
| FileNotFoundError (file : string)
| IsADirectoryError (file : string)
| PermissionError (file : string)
| UnicodeDecodeError (file : string)
| YAMLError (file : string).

(** A computation reads and extends the tree and either returns a value or
    raises; the tree built so far is kept at the point of the raise. *)
Definition M (A : Type) : Type := App -> (exn + A) * App.

Definition ret {A : Type} (a : A) : M A := fun s => (inr a, s).

Definition raise {A : Type} (e : exn) : M A := fun s => (inl e, s).

Definition bind {A B : Type} (m : M A) (k : A -> M B) : M B :=
  fun s => match m s with
           | (inr a, s') => k a s'
           | (inl e, s') => (inl e, s')
           end.

Declare Scope run_scope.
Delimit Scope run_scope with run.
Notation "x <- m ;; k" := (bind m (fun x => k))
  (at level 100, m at next level, right associativity) : run_scope.
Notation "m ;; k" := (bind m (fun _ => k))
  (at level 100, right associativity) : run_scope.
Open Scope run_scope.

Definition or_raise {A : Type} (e : exn) (o : option A) : M A :=
  match o with
  | Some a => ret a
  | None => raise e
  end.

(** [super().__init__(scope, id, **kwargs)] *)
Definition new_stack (id : string) (env : Environment) : M unit :=
  fun '(mkApp _ ch rs ps ds sy) =>
    (inr tt, mkApp (Some (id, env)) ch rs ps ds sy).

Definition add_child (c : Construct) : M unit :=
  fun '(mkApp st ch rs ps ds sy) =>
    (inr tt, mkApp st (ch ++ [c]) rs ps ds sy).

Definition allow_from (sg other : SecurityGroupRef) (port_range : Port)
  : M unit :=
  fun '(mkApp st ch rs ps ds sy) =>
    (inr tt, mkApp st ch (rs ++ [mkRule sg other port_range]) ps ds sy).

Definition add_to_policy (service_account : string) (statement : pyval)
  : M unit :=
  fun '(mkApp st ch rs ps ds sy) =>
    (inr tt, mkApp st ch rs (ps ++ [(service_account, statement)]) ds sy).

Definition add_dependency (node dep : string) : M unit :=
  fun '(mkApp st ch rs ps ds sy) =>
    (inr tt, mkApp st ch rs ps (ds ++ [(node, dep)]) sy).

(** ** What the script reads *)

(** Why a file that exists does not give a document. *)
Inductive load_failure : Type :=
| is_a_directory
| permission_denied
| not_decodable
| not_yaml.

Definition failure_exn (f : load_failure) (file : string) : exn :=
  match f with
  | is_a_directory => IsADirectoryError file
  | permission_denied => PermissionError file
  | not_decodable => UnicodeDecodeError file
  | not_yaml => YAMLError file
  end.

(** The CDK context ([cdk.json] and [-c key=value]), the process
    environment, the private subnets of the looked-up VPC, the files of the
    working directory by name (each either fails to load or gives the
    document it parses to), and the engine's check of an environment
    specification [aws://account/region] at synthesis, which is the
    library's and so an input here. *)
Record World : Type := mkWorld {
  context : gmap string json;
  environ : gmap string string;
  private_subnets : list string;
  documents : gmap string (load_failure + json);
  parses_environment : string -> string -> bool
}.

(** [node.try_get_context(key)]: Python's [None] when the key is unset. *)
Definition try_get_context (w : World) (key : string) : json :=
  default VNone (context w !! key).

(** [yaml.load(open(file, 'r'), Loader=yaml.FullLoader)] *)
Definition yaml_load (w : World) (file : string) : M json :=
  match documents w !! file with
  | None => raise (FileNotFoundError file)
  | Some (inl f) => raise (failure_exn f file)
  | Some (inr doc) => ret doc
  end.

(** [app.synth()]: the tree is handed to the external engine, which
    rejects a stack whose environment it cannot parse. *)
Definition synth (w : World) : M unit :=
  fun '(mkApp st ch rs ps ds sy) =>
    match st with
    | Some (_, env) =>
        if parses_environment w (env_account env) (env_region env)
        then (inr tt, mkApp st ch rs ps ds true)
        else (inl (RuntimeError "synth"), mkApp st ch rs ps ds sy)
    | None => (inr tt, mkApp st ch rs ps ds true)
    end.

(** [str.isspace], on the UTF-8 encoding: one-byte, two-byte and
    three-byte white space (U+0009..U+000D, U+001C..U+0020; U+0085, U+00A0;
    U+1680, U+2000..U+200A, U+2028, U+2029, U+202F, U+205F, U+3000). *)
Definition isspace (c : ascii) : bool :=
  let n := nat_of_ascii c in
  ((9 <=? n)%nat && (n <=? 13)%nat) || ((28 <=? n)%nat && (n <=? 32)%nat).

Definition isspace2 (c1 c2 : ascii) : bool :=
  let n1 := nat_of_ascii c1 in
  let n2 := nat_of_ascii c2 in
  (n1 =? 194)%nat && ((n2 =? 133)%nat || (n2 =? 160)%nat).

Definition isspace3 (c1 c2 c3 : ascii) : bool :=
  let n1 := nat_of_ascii c1 in
  let n2 := nat_of_ascii c2 in
  let n3 := nat_of_ascii c3 in
  ((n1 =? 225)%nat && (n2 =? 154)%nat && (n3 =? 128)%nat)
  || ((n1 =? 226)%nat && (n2 =? 128)%nat
      && (((128 <=? n3)%nat && (n3 <=? 138)%nat)
          || (n3 =? 168)%nat || (n3 =? 169)%nat || (n3 =? 175)%nat))
  || ((n1 =? 226)%nat && (n2 =? 129)%nat && (n3 =? 159)%nat)
  || ((n1 =? 227)%nat && (n2 =? 128)%nat && (n3 =? 128)%nat).

(** [str.lstrip()], and the same on the reversed bytes. *)
Fixpoint lstrip (s : string) : string :=
  match s with
  | String c1 s1 =>
      if isspace c1 then lstrip s1
      else
        match s1 with
        | String c2 s2 =>
            if isspace2 c1 c2 then lstrip s2
            else
              match s2 with
              | String c3 s3 =>
                  if isspace3 c1 c2 c3 then lstrip s3 else s
              | EmptyString => s
              end
        | EmptyString => s
        end
  | EmptyString => EmptyString
  end.

Fixpoint lstrip_reversed (s : string) : string :=
  match s with
  | String c1 s1 =>
      if isspace c1 then lstrip_reversed s1
      else
        match s1 with
        | String c2 s2 =>
            if isspace2 c2 c1 then lstrip_reversed s2
            else
              match s2 with
              | String c3 s3 =>
                  if isspace3 c3 c2 c1 then lstrip_reversed s3 else s
              | EmptyString => s
              end
        | EmptyString => s
        end
  | EmptyString => EmptyString
  end.

(** [str.strip()] *)
Definition strip (s : string) : string :=
  String.rev (lstrip_reversed (String.rev (lstrip s))).

(** ** The payloads written out in the script *)

Definition externalsecrets_policy_statement_json_1 : pyval :=
  VDict [
    ("Effect", VStr "Allow");
    ("Action", VList [
       VStr "secretsmanager:GetResourcePolicy";
       VStr "secretsmanager:GetSecretValue";
       VStr "secretsmanager:DescribeSecret";
       VStr "secretsmanager:ListSecretVersionIds"]);
    ("Resource", VList [VStr "*"])
  ].

Definition external_secrets_values (self_region : string) : pyval :=
  VDict [
    ("env", VDict [("AWS_REGION", VStr self_region)]);
    ("serviceAccount", VDict [
       ("name", VStr "kubernetes-external-secrets");
       ("create", VBool false)]);
    ("securityContext", VDict [("fsGroup", VInt 65534)])
  ].

Definition external_secrets_chart_props (self_region : string)
  : HelmChartProps :=
  {| chart := "kubernetes-external-secrets";
     version := "8.3.0";
     repository :=
       "https://external-secrets.github.io/kubernetes-external-secrets/";
     chart_namespace := "kube-system";
     release := "external-secrets";
     values := external_secrets_values self_region |}.

Definition sgp_manifest (security_group_pods : SecurityGroupRef) : pyval :=
  VDict [
    ("apiVersion", VStr "vpcresources.k8s.aws/v1beta1");
    ("kind", VStr "SecurityGroupPolicy");
    ("metadata", VDict [("name", VStr "ghost-sgp")]);
    ("spec", VDict [
       ("podSelector", VDict [
          ("matchLabels", VDict [("app", VStr "ghost")])]);
       ("securityGroups", VDict [
          ("groupIds", VList [
             VTok (security_group_id security_group_pods);
             VTok (security_group_id kubectl_security_group)])])])
  ].

Definition secret_field (ghost_rds : string) (name : string) : pyval :=
  VDict [
    ("key", VTok (secret_name ghost_rds));
    ("name", VStr name);
    ("property", VStr name)
  ].

Definition external_secret_manifest (ghost_rds : string) : pyval :=
  VDict [
    ("apiVersion", VStr "kubernetes-client.io/v1");
    ("kind", VStr "ExternalSecret");
    ("metadata", VDict [
       ("name", VStr "ghost-database");
       ("namespace", VStr "default")]);
    ("spec", VDict [
       ("backendType", VStr "secretsManager");
       ("data", VList [
          secret_field ghost_rds "password";
          secret_field ghost_rds "dbname";
          secret_field ghost_rds "host";
          secret_field ghost_rds "username"])])
  ].

Definition ghost_rds_props (vpc : string) (security_group : SecurityGroupRef)
  : DatabaseInstanceProps :=
  {| deletion_protection := false;
     removal_policy := DESTROY;
     multi_az := false;
     allocated_storage := 20;
     engine := mysql VER_8_0_25;
     credentials := from_username "root";
     database_name := "ghost";
     db_vpc := vpc;
     instance_type := InstanceType_of BURSTABLE3 MICRO;
     security_groups := [security_group] |}.

Definition eks_cluster_attrs (vpc : string) (subnet_ids : list string)
  : ClusterAttributes :=
  {| cluster_name := import_value "EKSClusterName";
     open_id_connect_provider := "EKSClusterOIDCProvider";
     kubectl_role_arn := import_value "EKSClusterKubectlRoleARN";
     cluster_vpc := vpc;
     kubectl_security_group_id := import_value "EKSSGID";
     kubectl_private_subnet_ids := subnet_ids;
     cluster_security_group_id := None |}.

(** ** The library calls that can raise *)

(** [rds.DatabaseInstance(self, id, ...)]: the instance is placed in the
    private subnets of its VPC, and the library refuses a VPC that has
    none. *)
Definition new_DatabaseInstance (w : World) (id : string)
           (props : DatabaseInstanceProps) : M unit :=
  match private_subnets w with
  | [] => raise (RuntimeError "DatabaseInstance")
  | _ :: _ => add_child (DatabaseInstance id props)
  end.

(** [eks_cluster.cluster_security_group] of an imported cluster: defined
    only if [cluster_security_group_id] was passed at the import. *)
Definition cluster_security_group_of (attrs : ClusterAttributes)
  : M SecurityGroupRef :=
  match cluster_security_group_id attrs with
  | Some _ => ret cluster_security_group
  | None => raise (RuntimeError "cluster_security_group")
  end.

(** [eks_cluster.add_manifest(id, manifest)]: the manifest has to be a
    mapping. *)
Definition add_manifest (id : string) (manifest : pyval) : M unit :=
  match manifest with
  | VDict _ => add_child (KubernetesManifest id manifest)
  | _ => raise TypeError
  end.

(** ** [GhostStack.__init__] *)

Definition GhostStack_init (w : World) (id : string) (env : Environment)
  : M unit :=
  new_stack id env ;;
  let vpc := "VPC" in
  add_child (Vpc_from_lookup vpc "EKSClusterStack/VPC") ;;
  let security_group := SG "Ghost-DB-SG" in
  add_child (SecurityGroup "Ghost-DB-SG" vpc true) ;;
  let ghost_rds := "RDS" in
  new_DatabaseInstance w ghost_rds (ghost_rds_props vpc security_group) ;;
  add_child (OpenIdConnectProvider_import "EKSClusterOIDCProvider"
               (import_value "EKSClusterOIDCProviderARN")) ;;
  subnet0 <- or_raise IndexError (private_subnets w !! 0%nat) ;;
  subnet1 <- or_raise IndexError (private_subnets w !! 1%nat) ;;
  let eks_cluster := eks_cluster_attrs vpc [subnet0; subnet1] in
  add_child (Cluster_import "cluster" eks_cluster) ;;
  external_secrets_chart <-
    (if eq_True (try_get_context w "deploy_external_secrets") then
       let externalsecrets_service_account := "kubernetes-external-secrets" in
       add_child (ServiceAccount externalsecrets_service_account
                    "kubernetes-external-secrets" "kube-system") ;;
       add_to_policy externalsecrets_service_account
         externalsecrets_policy_statement_json_1 ;;
       add_child (HelmChart "external-secrets"
                    (external_secrets_chart_props (env_region env))) ;;
       ret (Some "external-secrets")
     else ret None) ;;
  (if eq_True (try_get_context w "deploy_sgp") then
     let security_group_pods := SG "Ghost-Pod-SG" in
     add_child (SecurityGroup "Ghost-Pod-SG" vpc true) ;;
     allow_from security_group security_group_pods (tcp 3306) ;;
     add_manifest "GhostSGP" (sgp_manifest security_group_pods)
   else
     other <- cluster_security_group_of eks_cluster ;;
     allow_from security_group other (tcp 3306)) ;;
  let ghost_external_secret := "GhostExternalSecret" in
  add_manifest ghost_external_secret (external_secret_manifest ghost_rds) ;;
  (if eq_True (try_get_context w "deploy_external_secrets") then
     c <- or_raise (NameError "external_secrets_chart")
                   external_secrets_chart ;;
     add_dependency ghost_external_secret c
   else ret tt) ;;
  ghost_deployment_yaml <- yaml_load w "ghost-deployment.yaml" ;;
  let ghost_deployment_manifest := "GhostDeploymentManifest" in
  add_manifest ghost_deployment_manifest (lift ghost_deployment_yaml) ;;
  add_dependency ghost_deployment_manifest ghost_external_secret ;;
  ghost_service_yaml <- yaml_load w "ghost-service.yaml" ;;
  add_manifest "GhostServiceManifest" (lift ghost_service_yaml) ;;
  ghost_ingress_yaml <- yaml_load w "ghost-ingress.yaml" ;;
  add_manifest "GhostIngressManifest" (lift ghost_ingress_yaml).

(** ** The module-level code *)

(** [os.environ[key]] *)
Definition environ_getitem (w : World) (key : string) : M string :=
  or_raise (KeyError key) (environ w !! key).

(** [os.environ.get(key, dflt)] *)
Definition environ_get (w : World) (key : string) (dflt : string) : string :=
  default dflt (environ w !! key).

(** The two [if ... .strip() != "": ... else: ...] blocks and the calls
    after them.  Only a string has a [strip] method: on any other context
    value, Python's [None] of an unset key included, the attribute lookup
    raises.  In the [else] branch the default argument
    [os.environ["CDK_DEFAULT_..."]] is evaluated before [os.environ.get]
    is called. *)
Definition main (w : World) : M unit :=
  account <-
    match try_get_context w "account" with
    | VStr s =>
        if negb (String.eqb (strip s) "") then ret s
        else
          dflt <- environ_getitem w "CDK_DEFAULT_ACCOUNT" ;;
          ret (environ_get w "CDK_DEPLOY_ACCOUNT" dflt)
    | _ => raise AttributeError
    end ;;
  region <-
    match try_get_context w "region" with
    | VStr s =>
        if negb (String.eqb (strip s) "") then ret s
        else
          dflt <- environ_getitem w "CDK_DEFAULT_REGION" ;;
          ret (environ_get w "CDK_DEPLOY_REGION" dflt)
    | _ => raise AttributeError
    end ;;
  GhostStack_init w "GhostStack" (mkEnvironment account region) ;;
  synth w.

(** The exit status of the interpreter: an uncaught exception gives 1. *)
Definition exit_status {A : Type} (r : (exn + A) * App) : Z :=
  match fst r with
  | inl _ => 1
  | inr _ => 0
  end.

(** ** Reading the finished tree *)

(** The two feature flags as the script tests them (lines 63, 113, 185). *)
Definition deploy_external_secrets (w : World) : bool :=
  eq_True (try_get_context w "deploy_external_secrets").

Definition deploy_sgp (w : World) : bool :=
  eq_True (try_get_context w "deploy_sgp").

(** Payloads of the manifests with construct id [id], in creation order. *)
Definition manifests_named (id : string) (st : App) : list pyval :=
  omap (fun c => match c with
                 | KubernetesManifest id' m =>
                     if String.eqb id id' then Some m else None
                 | _ => None
                 end) (children st).

(** Ids of the security groups the stack creates. *)
Definition created_security_groups (st : App) : list string :=
  omap (fun c => match c with
                 | SecurityGroup id _ _ => Some id
                 | _ => None
                 end) (children st).

Definition service_accounts (st : App) : list (string * string * string) :=
  omap (fun c => match c with
                 | ServiceAccount id name ns => Some (id, name, ns)
                 | _ => None
                 end) (children st).

Definition helm_charts (st : App) : list (string * HelmChartProps) :=
  omap (fun c => match c with
                 | HelmChart id props => Some (id, props)
                 | _ => None
                 end) (children st).

Definition databases (st : App) : list (string * DatabaseInstanceProps) :=
  omap (fun c => match c with
                 | DatabaseInstance id props => Some (id, props)
                 | _ => None
                 end) (children st).

(** The nodes [node] has declared a dependency on. *)
Definition depends_on (node : string) (st : App) : list string :=
  omap (fun e => if String.eqb node (fst e) then Some (snd e) else None)
       (dependencies st).

(** [node] is ordered after [target] by a chain of declared edges. *)
Inductive ordered_after (st : App) : string -> string -> Prop :=
| after_edge a b :
    In (a, b) (dependencies st) -> ordered_after st a b
| after_trans a b c :
    In (a, b) (dependencies st) -> ordered_after st b c ->
    ordered_after st a c.

(** Position of the first construct with the given id. *)
Fixpoint index_of (id : string) (l : list Construct) : option nat :=
  match l with
  | [] => None
  | c :: l' => if String.eqb id (construct_id c) then Some 0%nat
               else S <$> index_of id l'
  end.

(** [a] is created before [b]. *)
Definition created_before (a b : string) (st : App) : bool :=
  match index_of a (children st), index_of b (children st) with
  | Some i, Some j => (i <? j)%nat
  | _, _ => false
  end.

(** A file that loads to a mapping. *)
Definition mapping (w : World) (file : string) : bool :=
  match documents w !! file with
  | Some (inr (VDict _)) => true
  | _ => false
  end.

(** What a full run of the constructor needs from its surroundings: two
    private subnets, the [deploy_sgp] flag on, and three files that load
    to mappings. *)
Definition ready (w : World) : bool :=
  (2 <=? length (private_subnets w))%nat
  && deploy_sgp w
  && mapping w "ghost-deployment.yaml"
  && mapping w "ghost-service.yaml"
  && mapping w "ghost-ingress.yaml".

(** The document a file loads to ([VNone] when it does not load). *)
Definition document (w : World) (file : string) : json :=
  match documents w !! file with
  | Some (inr doc) => doc
  | _ => VNone
  end.

(** The two rules the database's security group can receive. *)
Definition pod_rule : SecurityRule :=
  mkRule (SG "Ghost-DB-SG") (SG "Ghost-Pod-SG") (tcp 3306).

Definition cluster_rule : SecurityRule :=
  mkRule (SG "Ghost-DB-SG") cluster_security_group (tcp 3306).

(** The entries of [spec.data] of an ExternalSecret payload. *)
Definition secret_fields (m : pyval) : list pyval :=
  match path ["spec"; "data"] m with
  | Some (VList fields) => fields
  | _ => []
  end.

(** Every manifest that mentions the generated secret of a database of the
    stack is ordered after that database by declared edges, and after the
    secret-sync chart when the external-secrets feature is on. *)
Definition secret_consumers_ordered_by_edges (w : World) (st : App) : Prop :=
  forall id m db props,
    In (KubernetesManifest id m) (children st) ->
    In (DatabaseInstance db props) (children st) ->
    mentions (secret_name db) m = true ->
    ordered_after st id db /\
    (deploy_external_secrets w = true ->
     ordered_after st id "external-secrets").

(** ** Further readings of the tree and of a failed run *)

Definition clusters (st : App) : list (string * ClusterAttributes) :=
  omap (fun c => match c with
                 | Cluster_import id attrs => Some (id, attrs)
                 | _ => None
                 end) (children st).

(** The VPC a construct is placed in, for those that take [vpc=]. *)
Definition construct_vpc (c : Construct) : option string :=
  match c with
  | SecurityGroup _ vpc _ => Some vpc
  | DatabaseInstance _ props => Some (db_vpc props)
  | Cluster_import _ attrs => Some (cluster_vpc attrs)
  | _ => None
  end.

(** The three files in the order the constructor opens them. *)
Definition yaml_files : list string :=
  ["ghost-deployment.yaml"; "ghost-service.yaml"; "ghost-ingress.yaml"].

(** The first of them that does not load to a mapping, if any. *)
Definition first_unloadable (w : World) : option string :=
  find (fun file => negb (mapping w file)) yaml_files.

(** What the constructor raises on a file that does not load to a
    mapping: the error of [open] or of the parser, or the [TypeError] of
    [add_manifest]. *)
Definition load_error (w : World) (file : string) : exn :=
  match documents w !! file with
  | None => FileNotFoundError file
  | Some (inl f) => failure_exn f file
  | Some (inr _) => TypeError
  end.

(** [hoare P m Q E]: from a tree satisfying [P], the computation [m] either
    returns [a] in a tree satisfying [Q a] or raises [e] in a tree
    satisfying [E e]. *)
Definition hoare {A : Type} (P : App -> Prop) (m : M A)
           (Q : A -> App -> Prop) (E : exn -> App -> Prop) : Prop :=
  forall s, P s ->
    match m s with
    | (inr a, s') => Q a s'
    | (inl e, s') => E e s'
    end.

(** The stack registered under the app is [id] with environment [env]. *)
Definition has_stack (id : string) (env : Environment) (s : App) : Prop :=
  stack s = Some (id, env).

Definition is_NameError (e : exn) : bool :=
  match e with
  | NameError _ => true
  | _ => false
  end.

(** Two trees with the same stack, constructs, rules, policies and
    edges. *)
Definition same_tree (s s' : App) : Prop :=
  stack s = stack s' /\ children s = children s' /\ rules s = rules s' /\
  policies s = policies s' /\ dependencies s = dependencies s'.

(** ** Sample inputs *)

Definition sample_documents : gmap string (load_failure + json) :=
  list_to_map [
    ("ghost-deployment.yaml",
     inr (VDict [("apiVersion", VStr "apps/v1");
                 ("kind", VStr "Deployment");
                 ("metadata", VDict [("name", VStr "ghost")])]));
    ("ghost-service.yaml",
     inr (VDict [("apiVersion", VStr "v1");
                 ("kind", VStr "Service");
                 ("spec", VDict [("ports", VList [
                    VDict [("port", VInt 80)]])])]));
    ("ghost-ingress.yaml",
     inr (VDict [("apiVersion", VStr "networking.k8s.io/v1");
                 ("kind", VStr "Ingress")]))
  ].

Definition sample_environ : gmap string string :=
  list_to_map [
    ("CDK_DEFAULT_ACCOUNT", "111122223333");
    ("CDK_DEFAULT_REGION", "eu-west-1")
  ].

Definition sample_env : Environment :=
  mkEnvironment "111122223333" "eu-west-1".

(** A sample check of an environment: a non-empty account of digits and a
    non-empty region of lower-case letters, digits and hyphens. *)
Fixpoint all_chars (p : ascii -> bool) (s : string) : bool :=
  match s with
  | EmptyString => true
  | String c s' => p c && all_chars p s'
  end.

Definition is_digit (c : ascii) : bool :=
  let n := nat_of_ascii c in (48 <=? n)%nat && (n <=? 57)%nat.

Definition is_region_char (c : ascii) : bool :=
  let n := nat_of_ascii c in
  is_digit c || ((97 <=? n)%nat && (n <=? 122)%nat) || (n =? 45)%nat.

Definition sample_parses (account region : string) : bool :=
  negb (String.eqb account "") && all_chars is_digit account
  && negb (String.eqb region "") && all_chars is_region_char region.

(** A world with the given context, everything else in place. *)
Definition sample_world (ctx : list (string * json)) : World :=
  mkWorld (list_to_map ctx) sample_environ
          ["subnet-0a"; "subnet-0b"] sample_documents sample_parses.

(** Both flags unset, as in the shipped [cdk.json] defaults. *)
Definition w_plain : World :=
  sample_world [("account", VStr ""); ("region", VStr "")].

(** Both features switched on. *)
Definition w_full : World :=
  sample_world [("account", VStr ""); ("region", VStr "");
                ("deploy_external_secrets", VStr "True");
                ("deploy_sgp", VStr "True")].

(** Near misses of ["True"]. *)
Definition w_near : World :=
  sample_world [("account", VStr ""); ("region", VStr "");
                ("deploy_external_secrets", VStr "true");
                ("deploy_sgp", VBool true)].

(** Only the external-secrets feature switched on. *)
Definition w_secrets_only : World :=
  sample_world [("account", VStr ""); ("region", VStr "");
                ("deploy_external_secrets", VStr "True")].

(** Only the pod-level security group switched on. *)
Definition w_sgp_only : World :=
  sample_world [("account", VStr ""); ("region", VStr "");
                ("deploy_sgp", VStr "True")].

(** Only the explicit deploy variables are exported. *)
Definition w_deploy_only : World :=
  mkWorld (list_to_map [("account", VStr ""); ("region", VStr "")])
          (list_to_map [("CDK_DEPLOY_ACCOUNT", "111122223333");
                        ("CDK_DEPLOY_REGION", "eu-west-1")])
          ["subnet-0a"; "subnet-0b"] sample_documents sample_parses.

(** No [account] or [region] key in the context at all, with every
    environment variable exported. *)
Definition w_no_keys : World :=
  mkWorld ∅
          (list_to_map [("CDK_DEPLOY_ACCOUNT", "111122223333");
                        ("CDK_DEPLOY_REGION", "eu-west-1");
                        ("CDK_DEFAULT_ACCOUNT", "444455556666");
                        ("CDK_DEFAULT_REGION", "us-east-1")])
          ["subnet-0a"; "subnet-0b"] sample_documents sample_parses.

(** A VPC with a single private subnet, and one with none. *)
Definition w_one_subnet : World :=
  mkWorld (list_to_map [("account", VStr ""); ("region", VStr "");
                        ("deploy_sgp", VStr "True")])
          sample_environ ["subnet-0a"] sample_documents sample_parses.

Definition w_no_subnet : World :=
  mkWorld (list_to_map [("account", VStr ""); ("region", VStr "");
                        ("deploy_sgp", VStr "True")])
          sample_environ [] sample_documents sample_parses.

(** The service file is there but does not parse; the ingress file is
    missing. *)
Definition w_bad_service : World :=
  mkWorld (list_to_map [("account", VStr ""); ("region", VStr "");
                        ("deploy_external_secrets", VStr "True");
                        ("deploy_sgp", VStr "True")])
          sample_environ ["subnet-0a"; "subnet-0b"; "subnet-0c"]
          (list_to_map [
             ("ghost-deployment.yaml",
              inr (VDict [("kind", VStr "Deployment")]));
             ("ghost-service.yaml", inl not_yaml)])
          sample_parses.

(** The deployment file loads to a list, not to a mapping. *)
Definition w_list_deployment : World :=
  mkWorld (list_to_map [("account", VStr ""); ("region", VStr "");
                        ("deploy_sgp", VStr "True")])
          sample_environ ["subnet-0a"; "subnet-0b"]
          (<["ghost-deployment.yaml" :=
               inr (VList [VDict [("kind", VStr "Deployment")]])]>
             sample_documents)
          sample_parses.

(** Four private subnets and every file in place. *)
Definition w_four_subnets : World :=
  mkWorld (list_to_map [("account", VStr ""); ("region", VStr "");
                        ("deploy_sgp", VStr "True")])
          sample_environ
          ["subnet-0a"; "subnet-0b"; "subnet-0c"; "subnet-0d"]
          sample_documents sample_parses.

(** Account and region given in the context, with surrounding blanks. *)
Definition w_configured : World :=
  sample_world [("account", VStr " 999988887777"); ("region", VStr "ap-south-1 ");
                ("deploy_sgp", VStr "True")].

(** Account and region given in the context. *)
Definition w_configured_clean : World :=
  sample_world [("account", VStr "999988887777"); ("region", VStr "ap-south-1");
                ("deploy_sgp", VStr "True")].

(** A numeric account, as an unquoted number in [cdk.json] would give. *)
Definition w_numeric_account : World :=
  sample_world [("account", VInt 111122223333); ("region", VStr "")].

(** Blank configuration, deploy variable for the region only. *)
Definition w_blank_mixed : World :=
  mkWorld (list_to_map [("account", VStr "  "); ("region", VStr "");
                        ("deploy_external_secrets", VStr "True");
                        ("deploy_sgp", VStr "True")])
          (list_to_map [("CDK_DEFAULT_ACCOUNT", "111122223333");
                        ("CDK_DEFAULT_REGION", "eu-west-1");
                        ("CDK_DEPLOY_REGION", "us-west-2")])
          ["subnet-0a"; "subnet-0b"] sample_documents sample_parses.

(** * Properties *)

(** ** Structural induction on values *)

Section value_induction.
Context {T : Type} (P : value T -> Prop).
Hypothesis HNone : P VNone.
Hypothesis HBool : forall b, P (VBool b).
Hypothesis HInt : forall n, P (VInt n).
Hypothesis HStr : forall s, P (VStr s).
Hypothesis HList : forall l, Forall P l -> P (VList l).
Hypothesis HDict : forall d, Forall (fun kv => P (snd kv)) d -> P (VDict d).
Hypothesis HTok : forall t, P (VTok t).

Fixpoint value_nested_ind (v : value T) : P v :=
  match v with
  | VNone => HNone
  | VBool b => HBool b
  | VInt n => HInt n
  | VStr s => HStr s
  | VList l =>
      HList l ((fix go (l : list (value T)) : Forall P l :=
                  match l with
                  | [] => List.Forall_nil _
                  | x :: l' => List.Forall_cons _ x l' (value_nested_ind x) (go l')
                  end) l)
  | VDict d =>
      HDict d ((fix go (d : list (string * value T))
                  : Forall (fun kv => P (snd kv)) d :=
                  match d with
                  | [] => List.Forall_nil _
                  | kv :: d' =>
                      List.Forall_cons _ kv d' (value_nested_ind (snd kv)) (go d')
                  end) d)
  | VTok t => HTok t
  end.
End value_induction.

(** A document loaded from a file holds no late-bound attribute. *)
Lemma mentions_lift (t : Token) (doc : json) : mentions t (lift doc) = false.
Proof.
  induction doc as [| | | |l IH|d IH|[]] using value_nested_ind; simpl; try reflexivity.
  - induction IH as [|x l Hx _ IHl]; simpl; [reflexivity|].
    now rewrite Hx, IHl.
  - induction IH as [|x l Hx _ IHl]; simpl; [reflexivity|].
    now rewrite Hx, IHl.
Qed.

Lemma ready_inv (w : World) :
  ready w = true ->
  exists s0 s1 dep svc ing,
    private_subnets w !! 0%nat = Some s0 /\
    private_subnets w !! 1%nat = Some s1 /\
    deploy_sgp w = true /\
    documents w !! "ghost-deployment.yaml" = Some (inr (VDict dep)) /\
    documents w !! "ghost-service.yaml" = Some (inr (VDict svc)) /\
    documents w !! "ghost-ingress.yaml" = Some (inr (VDict ing)).
Proof.
  unfold ready, mapping. intros H.
  repeat (apply andb_prop in H; destruct H as [H ?]).
  destruct (private_subnets w) as [|s0 [|s1 rest]]; try discriminate.
  exists s0, s1.
  repeat match goal with
         | H : match ?x with _ => _ end = true |- _ =>
             destruct x as [[? | [| | | | | ? | []]] |];
             try discriminate; clear H
         end.
  do 3 eexists. repeat split; assumption.
Qed.

Lemma document_loaded (w : World) (file : string) (doc : json) :
  documents w !! file = Some (inr doc) -> document w file = doc.
Proof. unfold document. intros ->. reflexivity. Qed.

(** ** Running the constructor *)

(** The tree a full run of [GhostStack.__init__] leaves behind, given the
    two subnets, the [deploy_sgp] flag on and the three mappings it
    reads. *)
Lemma GhostStack_init_run (w : World) (id : string) (env : Environment)
      (s0 s1 : string) (dep svc ing : list (string * json)) :
  private_subnets w !! 0%nat = Some s0 ->
  private_subnets w !! 1%nat = Some s1 ->
  deploy_sgp w = true ->
  documents w !! "ghost-deployment.yaml" = Some (inr (VDict dep)) ->
  documents w !! "ghost-service.yaml" = Some (inr (VDict svc)) ->
  documents w !! "ghost-ingress.yaml" = Some (inr (VDict ing)) ->
  GhostStack_init w id env empty_app =
  (inr tt,
   {| stack := Some (id, env);
      children :=
        [Vpc_from_lookup "VPC" "EKSClusterStack/VPC";
         SecurityGroup "Ghost-DB-SG" "VPC" true;
         DatabaseInstance "RDS" (ghost_rds_props "VPC" (SG "Ghost-DB-SG"));
         OpenIdConnectProvider_import "EKSClusterOIDCProvider"
           (import_value "EKSClusterOIDCProviderARN");
         Cluster_import "cluster" (eks_cluster_attrs "VPC" [s0; s1])]
        ++ (if deploy_external_secrets w
            then [ServiceAccount "kubernetes-external-secrets"
                    "kubernetes-external-secrets" "kube-system";
                  HelmChart "external-secrets"
                    (external_secrets_chart_props (env_region env))]
            else [])
        ++ [SecurityGroup "Ghost-Pod-SG" "VPC" true;
            KubernetesManifest "GhostSGP" (sgp_manifest (SG "Ghost-Pod-SG"));
            KubernetesManifest "GhostExternalSecret"
              (external_secret_manifest "RDS");
            KubernetesManifest "GhostDeploymentManifest" (lift (VDict dep));
            KubernetesManifest "GhostServiceManifest" (lift (VDict svc));
            KubernetesManifest "GhostIngressManifest" (lift (VDict ing))];
      rules := [pod_rule];
      policies :=
        (if deploy_external_secrets w
         then [("kubernetes-external-secrets",
                externalsecrets_policy_statement_json_1)]
         else []);
      dependencies :=
        (if deploy_external_secrets w
         then [("GhostExternalSecret", "external-secrets")]
         else [])
        ++ [("GhostDeploymentManifest", "GhostExternalSecret")];
      synthesized := false |}).
Proof.
  intros H0 H1 Hsgp Hdep Hsvc Hing.
  unfold GhostStack_init, new_DatabaseInstance, yaml_load.
  unfold deploy_external_secrets. unfold deploy_sgp in Hsgp.
  rewrite H0, H1, Hsgp, Hdep, Hsvc, Hing.
  destruct (private_subnets w) as [| x rest]; [discriminate H0 |].
  destruct (eq_True (try_get_context w "deploy_external_secrets"));
    reflexivity.
Qed.

(** The tree at the raise of line 149, given two subnets and the
    [deploy_sgp] flag off: everything up to the flag test is there, no
    rule, no manifest and no edge. *)
Lemma GhostStack_init_cluster_branch
      (w : World) (id : string) (env : Environment) (s0 s1 : string) :
  private_subnets w !! 0%nat = Some s0 ->
  private_subnets w !! 1%nat = Some s1 ->
  deploy_sgp w = false ->
  GhostStack_init w id env empty_app =
  (inl (RuntimeError "cluster_security_group"),
   {| stack := Some (id, env);
      children :=
        [Vpc_from_lookup "VPC" "EKSClusterStack/VPC";
         SecurityGroup "Ghost-DB-SG" "VPC" true;
         DatabaseInstance "RDS" (ghost_rds_props "VPC" (SG "Ghost-DB-SG"));
         OpenIdConnectProvider_import "EKSClusterOIDCProvider"
           (import_value "EKSClusterOIDCProviderARN");
         Cluster_import "cluster" (eks_cluster_attrs "VPC" [s0; s1])]
        ++ (if deploy_external_secrets w
            then [ServiceAccount "kubernetes-external-secrets"
                    "kubernetes-external-secrets" "kube-system";
                  HelmChart "external-secrets"
                    (external_secrets_chart_props (env_region env))]
            else []);
      rules := [];
      policies :=
        (if deploy_external_secrets w
         then [("kubernetes-external-secrets",
                externalsecrets_policy_statement_json_1)]
         else []);
      dependencies := [];
      synthesized := false |}).
Proof.
  intros H0 H1 Hsgp.
  unfold GhostStack_init, new_DatabaseInstance.
  unfold deploy_external_secrets. unfold deploy_sgp in Hsgp.
  rewrite H0, H1, Hsgp.
  destruct (private_subnets w) as [| x rest]; [discriminate H0 |].
  destruct (eq_True (try_get_context w "deploy_external_secrets"));
    reflexivity.
Qed.

Lemma two_subnets (w : World) :
  (2 <= length (private_subnets w))%nat ->
  exists s0 s1,
    private_subnets w !! 0%nat = Some s0 /\
    private_subnets w !! 1%nat = Some s1.
Proof.
  destruct (private_subnets w) as [| s0 [| s1 rest]]; simpl; try lia.
  intros _. exists s0, s1. split; reflexivity.
Qed.

(** What a run leaves in the tree whatever its outcome, given two
    subnets: the constructs of the external-secrets feature exactly when
    its flag is on; the pod security group, the rule and the two manifests
    written before any file is opened exactly when [deploy_sgp] is on; and
    with [deploy_sgp] off the raise of line 149. *)
Lemma GhostStack_init_effects (w : World) (id : string) (env : Environment) :
  (2 <= length (private_subnets w))%nat ->
  exists r st,
    GhostStack_init w id env empty_app = (r, st) /\
    stack st = Some (id, env) /\
    databases st = [("RDS", ghost_rds_props "VPC" (SG "Ghost-DB-SG"))] /\
    service_accounts st =
      (if deploy_external_secrets w
       then [("kubernetes-external-secrets",
              "kubernetes-external-secrets", "kube-system")]
       else []) /\
    policies st =
      (if deploy_external_secrets w
       then [("kubernetes-external-secrets",
              externalsecrets_policy_statement_json_1)]
       else []) /\
    helm_charts st =
      (if deploy_external_secrets w
       then [("external-secrets",
              external_secrets_chart_props (env_region env))]
       else []) /\
    created_security_groups st =
      "Ghost-DB-SG" :: (if deploy_sgp w then ["Ghost-Pod-SG"] else []) /\
    rules st = (if deploy_sgp w then [pod_rule] else []) /\
    manifests_named "GhostSGP" st =
      (if deploy_sgp w then [sgp_manifest (SG "Ghost-Pod-SG")] else []) /\
    manifests_named "GhostExternalSecret" st =
      (if deploy_sgp w then [external_secret_manifest "RDS"] else []) /\
    (deploy_sgp w = false ->
     r = inl (RuntimeError "cluster_security_group") /\
     dependencies st = []) /\
    (ready w = true -> r = inr tt).
Proof.
  intros Hlen. destruct (two_subnets w Hlen) as (s0 & s1 & H0 & H1).
  destruct (deploy_sgp w) eqn:Hsgp.
  - unfold ready, mapping. rewrite Hsgp.
    unfold GhostStack_init, new_DatabaseInstance, yaml_load.
    unfold deploy_external_secrets. unfold deploy_sgp in Hsgp.
    rewrite H0, H1, Hsgp.
    destruct (private_subnets w) as [| x rest]; [discriminate H0 |].
    destruct (eq_True (try_get_context w "deploy_external_secrets"));
      destruct (documents w !! "ghost-deployment.yaml")
        as [[? | [| | | | | dep | []]] |];
      try (do 2 eexists; split; [reflexivity |];
           repeat split; try discriminate;
           rewrite ?andb_false_r; discriminate);
      destruct (documents w !! "ghost-service.yaml")
        as [[? | [| | | | | svc | []]] |];
      try (do 2 eexists; split; [reflexivity |];
           repeat split; try discriminate;
           rewrite ?andb_false_r; discriminate);
      destruct (documents w !! "ghost-ingress.yaml")
        as [[? | [| | | | | ing | []]] |];
      (do 2 eexists; split; [reflexivity |];
       repeat split; try discriminate;
       rewrite ?andb_false_r; discriminate).
  - rewrite (GhostStack_init_cluster_branch w id env s0 s1 H0 H1 Hsgp).
    do 2 eexists; split; [reflexivity |].
    unfold ready. rewrite Hsgp.
    destruct (deploy_external_secrets w);
      repeat split; try discriminate;
      rewrite ?andb_false_r; discriminate.
Qed.

(** Inversion of a successful run, one step at a time. *)
Lemma bind_inr {A B : Type} (m : M A) (k : A -> M B) (s s' : App) (b : B) :
  bind m k s = (inr b, s') ->
  exists a s1, m s = (inr a, s1) /\ k a s1 = (inr b, s').
Proof.
  unfold bind. destruct (m s) as [[e | a] s1]; [discriminate |].
  intros E. exists a, s1. split; [reflexivity | exact E].
Qed.

Lemma or_raise_inr {A : Type} (e : exn) (o : option A) (s s' : App) (a : A) :
  or_raise e o s = (inr a, s') -> o = Some a.
Proof.
  destruct o as [x |]; [intros [= -> _]; reflexivity | discriminate].
Qed.

Lemma yaml_load_inr (w : World) (file : string) (s s' : App) (doc : json) :
  yaml_load w file s = (inr doc, s') -> documents w !! file = Some (inr doc).
Proof.
  unfold yaml_load.
  destruct (documents w !! file) as [[f | d] |]; try discriminate.
  intros [= -> _]. reflexivity.
Qed.

Lemma add_manifest_lift_inr (id : string) (doc : json) (s s' : App) (u : unit) :
  add_manifest id (lift doc) s = (inr u, s') -> exists d, doc = VDict d.
Proof.
  destruct doc as [| b | n | x | l | d | []]; try discriminate.
  intros _. exists d. reflexivity.
Qed.

Lemma cluster_branch_raises {A : Type} (vpc : string) (ids : list string)
      (k : SecurityGroupRef -> M A) (s s' : App) (a : A) :
  bind (cluster_security_group_of (eks_cluster_attrs vpc ids)) k s
    <> (inr a, s').
Proof. discriminate. Qed.

(** A run that returns had two subnets, the [deploy_sgp] flag on and three
    files that load to mappings. *)
Lemma GhostStack_init_returns_ready
      (w : World) (id : string) (env : Environment) (st : App) :
  GhostStack_init w id env empty_app = (inr tt, st) -> ready w = true.
Proof.
  unfold GhostStack_init. intros E.
  repeat (cbv beta zeta in E; apply bind_inr in E;
          destruct E as (? & ? & ? & E)).
  repeat match goal with
         | H : or_raise _ _ _ = _ |- _ => apply or_raise_inr in H
         | H : yaml_load _ _ _ = _ |- _ => apply yaml_load_inr in H
         | H : add_manifest _ (lift _) _ = _ |- _ =>
             apply add_manifest_lift_inr in H; destruct H as [? ->]
         end.
  assert (Hsgp : deploy_sgp w = true).
  { unfold deploy_sgp.
    destruct (eq_True (try_get_context w "deploy_sgp")); [reflexivity |].
    exfalso.
    match goal with
    | H : bind (cluster_security_group_of _) _ _ = _ |- _ =>
        exact (cluster_branch_raises _ _ _ _ _ _ H)
    end. }
  unfold ready, mapping. rewrite Hsgp.
  destruct (private_subnets w) as [| s0 [| s1 rest]]; try discriminate.
  repeat match goal with
         | H : documents w !! _ = Some _ |- _ => rewrite H; clear H
         end.
  reflexivity.
Qed.

(** ** Helper facts *)

Lemma eq_True_spec {T : Type} (x : value T) :
  eq_True x = true <-> x = VStr "True".
Proof.
  destruct x; simpl; try (split; [discriminate | intros H; discriminate H]).
  rewrite String.eqb_eq. split; [intros -> | intros [= ->]]; reflexivity.
Qed.

Lemma try_get_context_True (w : World) (key : string) :
  eq_True (try_get_context w key) = true
  <-> context w !! key = Some (VStr "True").
Proof.
  rewrite eq_True_spec. unfold try_get_context.
  destruct (context w !! key) as [v|]; simpl.
  - split; [intros -> | intros [= ->]]; reflexivity.
  - split; discriminate.
Qed.

(** A chain of declared edges ends with an edge into its target. *)
Lemma ordered_after_target (st : App) (a b : string) :
  ordered_after st a b -> exists c, In (c, b) (dependencies st).
Proof.
  induction 1 as [a b Hab | a b c _ _ IH]; [exists a; exact Hab | exact IH].
Qed.

(** Unfold a full run in the goal, leaving the tree it built; the three
    file manifests are kept abstract, with the fact that they mention no
    late-bound attribute. *)
Ltac run_ready w id env H :=
  let s0 := fresh "s0" in
  let s1 := fresh "s1" in
  let dep := fresh "dep" in
  let svc := fresh "svc" in
  let ing := fresh "ing" in
  let H0 := fresh "Hsub0" in
  let H1 := fresh "Hsub1" in
  let Hsgp := fresh "Hsgp" in
  let Hd := fresh "Hdep" in
  let Hs := fresh "Hsvc" in
  let Hi := fresh "Hing" in
  let Hmd := fresh "Hmdep" in
  let Hms := fresh "Hmsvc" in
  let Hmi := fresh "Hming" in
  destruct (ready_inv w H)
    as (s0 & s1 & dep & svc & ing & H0 & H1 & Hsgp & Hd & Hs & Hi);
  rewrite (GhostStack_init_run w id env s0 s1 dep svc ing H0 H1 Hsgp Hd Hs Hi);
  pose proof (fun t => mentions_lift t (VDict dep)) as Hmd;
  pose proof (fun t => mentions_lift t (VDict svc)) as Hms;
  pose proof (fun t => mentions_lift t (VDict ing)) as Hmi;
  revert Hmd Hms Hmi;
  generalize (lift (VDict dep)) (lift (VDict svc)) (lift (VDict ing));
  intros ? ? ? Hmd Hms Hmi;
  eexists; split; [reflexivity |];
  cbn [stack children rules policies dependencies synthesized].

(** Split a membership in an explicit list into its cases, dropping the
    ones that equate different constructors. *)
Ltac in_cases H :=
  repeat (destruct H as [H | H]; [try discriminate H |]);
  try (destruct H; fail).

(** ** The two security-rule paths *)

(** With [deploy_sgp] on, a full run takes the pod-level path: the pod
    security group, the rule from it to port 3306 of the database group,
    and the pod-selector manifest. *)
Lemma pod_rule_path_when_ready (w : World) (id : string) (env : Environment) :
  ready w = true ->
  exists st,
    GhostStack_init w id env empty_app = (inr tt, st) /\
    rules st = [pod_rule] /\
    created_security_groups st = ["Ghost-DB-SG"; "Ghost-Pod-SG"] /\
    exists m,
      manifests_named "GhostSGP" st = [m] /\
      path ["spec"; "podSelector"; "matchLabels"] m
        = Some (VDict [("app", VStr "ghost")]).
Proof.
  intros H. run_ready w id env H.
  destruct (deploy_external_secrets w);
    (split; [reflexivity |]); (split; [reflexivity |]);
    eexists; split; reflexivity.
Qed.

(** With [deploy_sgp] off (any value but the string "True"), the run
    stops at line 149 when it asks the imported cluster for its security
    group: no rule at all has been added. *)
Lemma cluster_rule_never_added (w : World) (id : string) (env : Environment) :
  (2 <= length (private_subnets w))%nat ->
  deploy_sgp w = false ->
  exists st,
    GhostStack_init w id env empty_app
      = (inl (RuntimeError "cluster_security_group"), st) /\
    rules st = [] /\
    created_security_groups st = ["Ghost-DB-SG"] /\
    manifests_named "GhostSGP" st = [] /\
    manifests_named "GhostExternalSecret" st = [] /\
    dependencies st = [].
Proof.
  intros Hlen Hoff.
  destruct (GhostStack_init_effects w id env Hlen)
    as (r & st & Hrun & _ & _ & _ & _ & _ & Hsg & Hrules & Hsgp & Hges
        & Hraise & _).
  rewrite Hoff in Hsg, Hrules, Hsgp, Hges.
  destruct (Hraise Hoff) as [-> Hdeps].
  exists st. repeat split; assumption.
Qed.

(** C1, at a failing input.  With both flags unset the constructor takes
    the cluster-level branch and raises there: neither the pod-level path
    (no pod security group, no pod-selector manifest) nor the cluster-level
    rule is produced. *)
Theorem cluster_rule_path_raises :
  exists st,
    GhostStack_init w_plain "GhostStack" sample_env empty_app
      = (inl (RuntimeError "cluster_security_group"), st) /\
    deploy_sgp w_plain = false /\
    rules st = [] /\
    created_security_groups st = ["Ghost-DB-SG"] /\
    manifests_named "GhostSGP" st = [].
Proof. eexists. split; [vm_compute; reflexivity |]. repeat split. Qed.

(** ** The external-secrets feature *)

(** In a full run the service account, its policy statement and the helm
    chart exist exactly when [deploy_external_secrets] is on, and the
    secret-mapping manifest depends on the chart exactly then. *)
Lemma external_secrets_when_ready
      (w : World) (id : string) (env : Environment) :
  ready w = true ->
  exists st,
    GhostStack_init w id env empty_app = (inr tt, st) /\
    service_accounts st =
      (if deploy_external_secrets w
       then [("kubernetes-external-secrets",
              "kubernetes-external-secrets", "kube-system")]
       else []) /\
    map fst (policies st) =
      (if deploy_external_secrets w
       then ["kubernetes-external-secrets"] else []) /\
    map fst (helm_charts st) =
      (if deploy_external_secrets w then ["external-secrets"] else []) /\
    depends_on "GhostExternalSecret" st =
      (if deploy_external_secrets w then ["external-secrets"] else []).
Proof.
  intros H. run_ready w id env H.
  destruct (deploy_external_secrets w); repeat split.
Qed.

(** C2, at a failing input.  With [deploy_external_secrets] set to "True"
    and [deploy_sgp] unset, the service account, the policy statement and
    the helm chart are created, and the run then raises at line 149: the
    secret-mapping manifest is never created and no dependency edge to the
    chart exists although the flag is on. *)
Theorem sync_chart_without_secret_mapping :
  exists st,
    GhostStack_init w_secrets_only "GhostStack" sample_env empty_app
      = (inl (RuntimeError "cluster_security_group"), st) /\
    deploy_external_secrets w_secrets_only = true /\
    map fst (helm_charts st) = ["external-secrets"] /\
    map fst (policies st) = ["kubernetes-external-secrets"] /\
    manifests_named "GhostExternalSecret" st = [] /\
    depends_on "GhostExternalSecret" st = [] /\
    dependencies st = [].
Proof. eexists. split; [vm_compute; reflexivity |]. repeat split. Qed.

(** ** The secret-mapping manifest *)

(** In a full run the secret-mapping manifest exists once, with the four
    fields password, dbname, host, username, each keyed to the secret of
    the one database. *)
Lemma secret_mapping_when_ready
      (w : World) (id : string) (env : Environment) :
  ready w = true ->
  exists st,
    GhostStack_init w id env empty_app = (inr tt, st) /\
    exists m db props,
    manifests_named "GhostExternalSecret" st = [m] /\
    databases st = [(db, props)] /\
    length (secret_fields m) = 4%nat /\
    map (item "name") (secret_fields m) =
      [Some (VStr "password"); Some (VStr "dbname");
       Some (VStr "host"); Some (VStr "username")] /\
    Forall (fun f => item "key" f = Some (VTok (secret_name db)))
           (secret_fields m).
Proof.
  intros H. run_ready w id env H.
  destruct (deploy_external_secrets w);
    (do 3 eexists; repeat split; repeat constructor).
Qed.

(** C4, at the failing inputs.  With [deploy_sgp] unset, whether
    [deploy_external_secrets] is on or not, the run raises at line 149 and
    the secret-mapping manifest of line 152 is created zero times. *)
Theorem secret_mapping_never_created_with_sgp_off :
  (exists st,
     GhostStack_init w_plain "GhostStack" sample_env empty_app
       = (inl (RuntimeError "cluster_security_group"), st) /\
     manifests_named "GhostExternalSecret" st = []) /\
  (exists st,
     GhostStack_init w_secrets_only "GhostStack" sample_env empty_app
       = (inl (RuntimeError "cluster_security_group"), st) /\
     manifests_named "GhostExternalSecret" st = []).
Proof.
  split; (eexists; split; [vm_compute; reflexivity | reflexivity]).
Qed.

(** ** The three manifests loaded from files *)

(** In a full run the deployment, service and ingress manifests exist once
    each with the documents of their files; the deployment manifest
    depends on the secret-mapping manifest and the other two declare no
    dependency. *)
Lemma file_manifests_when_ready
      (w : World) (id : string) (env : Environment) :
  ready w = true ->
  exists st,
    GhostStack_init w id env empty_app = (inr tt, st) /\
    manifests_named "GhostDeploymentManifest" st
      = [lift (document w "ghost-deployment.yaml")] /\
    manifests_named "GhostServiceManifest" st
      = [lift (document w "ghost-service.yaml")] /\
    manifests_named "GhostIngressManifest" st
      = [lift (document w "ghost-ingress.yaml")] /\
    depends_on "GhostDeploymentManifest" st = ["GhostExternalSecret"] /\
    depends_on "GhostServiceManifest" st = [] /\
    depends_on "GhostIngressManifest" st = [].
Proof.
  intros H.
  destruct (ready_inv w H)
    as (s0 & s1 & dep & svc & ing & H0 & H1 & Hsgp & Hd & Hs & Hi).
  rewrite (GhostStack_init_run w id env s0 s1 dep svc ing H0 H1 Hsgp Hd Hs Hi).
  rewrite (document_loaded w _ _ Hd), (document_loaded w _ _ Hs),
    (document_loaded w _ _ Hi).
  generalize (lift (VDict dep)) (lift (VDict svc)) (lift (VDict ing)).
  intros mdep msvc ming. eexists; split; [reflexivity |].
  destruct (deploy_external_secrets w); repeat split.
Qed.

(** C5, at the failing inputs.  With [deploy_sgp] unset the run raises at
    line 149, before any of the three files is opened: the deployment,
    service and ingress manifests do not exist and the deployment manifest
    declares no dependency. *)
Theorem file_manifests_never_created_with_sgp_off :
  (exists st,
     GhostStack_init w_plain "GhostStack" sample_env empty_app
       = (inl (RuntimeError "cluster_security_group"), st) /\
     manifests_named "GhostDeploymentManifest" st = [] /\
     manifests_named "GhostServiceManifest" st = [] /\
     manifests_named "GhostIngressManifest" st = [] /\
     depends_on "GhostDeploymentManifest" st = []) /\
  (exists st,
     GhostStack_init w_secrets_only "GhostStack" sample_env empty_app
       = (inl (RuntimeError "cluster_security_group"), st) /\
     manifests_named "GhostDeploymentManifest" st = [] /\
     manifests_named "GhostServiceManifest" st = [] /\
     manifests_named "GhostIngressManifest" st = [] /\
     depends_on "GhostDeploymentManifest" st = []).
Proof.
  split; (eexists; split; [vm_compute; reflexivity | repeat split]).
Qed.

(** ** The flags are compared with the string "True" *)

(** C7. Given the two subnets the cluster import needs, the
    external-secrets branch is taken (the helm chart and the policy
    statement are in the tree) if and only if the context value of
    [deploy_external_secrets] is exactly the string "True"; the pod-level
    branch is taken (the pod security group, the rule from it and the
    [GhostSGP] manifest are in the tree) if and only if the context value
    of [deploy_sgp] is exactly the string "True"; with any other value, or
    no value, the other branch is taken, which for [deploy_sgp] is the
    one that raises at line 149 with no rule, no pod security group and no
    [GhostSGP].  A ready run returns. *)
Theorem flags_compare_with_string_True
        (w : World) (id : string) (env : Environment) :
  (2 <= length (private_subnets w))%nat ->
  exists r st,
    GhostStack_init w id env empty_app = (r, st) /\
    (context w !! "deploy_external_secrets" = Some (VStr "True") ->
     helm_charts st = [("external-secrets",
                        external_secrets_chart_props (env_region env))] /\
     policies st = [("kubernetes-external-secrets",
                     externalsecrets_policy_statement_json_1)]) /\
    (context w !! "deploy_external_secrets" <> Some (VStr "True") ->
     helm_charts st = [] /\ policies st = []) /\
    (context w !! "deploy_sgp" = Some (VStr "True") ->
     rules st = [pod_rule] /\
     created_security_groups st = ["Ghost-DB-SG"; "Ghost-Pod-SG"] /\
     manifests_named "GhostSGP" st = [sgp_manifest (SG "Ghost-Pod-SG")]) /\
    (context w !! "deploy_sgp" <> Some (VStr "True") ->
     r = inl (RuntimeError "cluster_security_group") /\
     rules st = [] /\
     created_security_groups st = ["Ghost-DB-SG"] /\
     manifests_named "GhostSGP" st = []) /\
    (ready w = true -> r = inr tt).
Proof.
  intros Hlen.
  destruct (GhostStack_init_effects w id env Hlen)
    as (r & st & Hrun & _ & _ & _ & Hpol & Hhelm & Hsg & Hrules & Hsgpm & _
        & Hraise & Hready).
  exists r, st. split; [exact Hrun |].
  pose proof (try_get_context_True w "deploy_external_secrets") as Hes.
  pose proof (try_get_context_True w "deploy_sgp") as Hsgp.
  fold (deploy_external_secrets w) in Hes. fold (deploy_sgp w) in Hsgp.
  rewrite Hpol, Hhelm, Hsg, Hrules, Hsgpm.
  destruct (deploy_external_secrets w); destruct (deploy_sgp w);
    repeat split; try reflexivity; try exact Hready;
    try (intros; apply Hraise; reflexivity);
    solve [ exfalso; intuition congruence
          | intros Hc; apply Hes in Hc; discriminate
          | intros Hc; apply Hsgp in Hc; discriminate ].
Qed.

Lemma flags_compare_with_string_True_witness :
  exists r st,
    GhostStack_init w_near "GhostStack" sample_env empty_app = (r, st) /\
    (context w_near !! "deploy_external_secrets" = Some (VStr "True") ->
     helm_charts st = [("external-secrets",
                        external_secrets_chart_props (env_region sample_env))] /\
     policies st = [("kubernetes-external-secrets",
                     externalsecrets_policy_statement_json_1)]) /\
    (context w_near !! "deploy_external_secrets" <> Some (VStr "True") ->
     helm_charts st = [] /\ policies st = []) /\
    (context w_near !! "deploy_sgp" = Some (VStr "True") ->
     rules st = [pod_rule] /\
     created_security_groups st = ["Ghost-DB-SG"; "Ghost-Pod-SG"] /\
     manifests_named "GhostSGP" st = [sgp_manifest (SG "Ghost-Pod-SG")]) /\
    (context w_near !! "deploy_sgp" <> Some (VStr "True") ->
     r = inl (RuntimeError "cluster_security_group") /\
     rules st = [] /\
     created_security_groups st = ["Ghost-DB-SG"] /\
     manifests_named "GhostSGP" st = []) /\
    (ready w_near = true -> r = inr tt).
Proof.
  apply (flags_compare_with_string_True w_near "GhostStack" sample_env).
  vm_compute. lia.
Defined.

(** Absence of the key, other spellings and non-string values are all
    different from the string "True". *)
Example flag_values_that_disable :
  eq_True (try_get_context w_plain "deploy_sgp") = false /\
  eq_True (VStr "true" : json) = false /\
  eq_True (VStr "1" : json) = false /\
  eq_True (VStr "TRUE" : json) = false /\
  eq_True (VStr "True " : json) = false /\
  eq_True (VBool true : json) = false /\
  eq_True (VInt 1 : json) = false.
Proof. repeat split. Qed.

(** ** The pod-selector manifest *)

(** C8. When [deploy_sgp] is on, a ready run creates the pod security
    group and one [GhostSGP] manifest whose [spec.securityGroups.groupIds]
    is a list of exactly two ids: that of the new pod security group and
    that of the cluster's kubectl security group. *)
Theorem sgp_manifest_binds_two_groups
        (w : World) (id : string) (env : Environment) :
  ready w = true ->
  deploy_sgp w = true ->
  exists st,
    GhostStack_init w id env empty_app = (inr tt, st) /\
    In (SecurityGroup "Ghost-Pod-SG" "VPC" true) (children st) /\
    exists m,
      manifests_named "GhostSGP" st = [m] /\
      path ["spec"; "securityGroups"; "groupIds"] m =
        Some (VList [VTok (security_group_id (SG "Ghost-Pod-SG"));
                     VTok (security_group_id kubectl_security_group)]).
Proof.
  intros H Hsgp. run_ready w id env H.
  destruct (deploy_external_secrets w).
  - split; [simpl; tauto | eexists; split; reflexivity].
  - split; [simpl; tauto | eexists; split; reflexivity].
Qed.

Lemma sgp_manifest_binds_two_groups_witness :
  exists st,
    GhostStack_init w_full "GhostStack" sample_env empty_app = (inr tt, st) /\
    In (SecurityGroup "Ghost-Pod-SG" "VPC" true) (children st) /\
    exists m,
      manifests_named "GhostSGP" st = [m] /\
      path ["spec"; "securityGroups"; "groupIds"] m =
        Some (VList [VTok (security_group_id (SG "Ghost-Pod-SG"));
                     VTok (security_group_id kubectl_security_group)]).
Proof.
  apply (sgp_manifest_binds_two_groups w_full "GhostStack" sample_env).
  - vm_compute. reflexivity.
  - vm_compute. reflexivity.
Defined.

(** ** The policy statement *)

(** C9. When [deploy_external_secrets] is on, the constructor (given the
    two subnets the cluster import needs) attaches exactly one policy
    statement, to the service account it created: effect Allow, the four
    secrets-manager read actions, and the resource list ["*"]; the
    statement nowhere refers to the database's generated secret.  This is
    in the tree whether the run then returns, as a ready run does, or
    raises. *)
Theorem secrets_policy_allows_wildcard
        (w : World) (id : string) (env : Environment) :
  (2 <= length (private_subnets w))%nat ->
  deploy_external_secrets w = true ->
  exists r st,
    GhostStack_init w id env empty_app = (r, st) /\
    (exists sa name ns stmt,
      service_accounts st = [(sa, name, ns)] /\
      policies st = [(sa, stmt)] /\
      item "Effect" stmt = Some (VStr "Allow") /\
      item "Action" stmt =
        Some (VList [VStr "secretsmanager:GetResourcePolicy";
                     VStr "secretsmanager:GetSecretValue";
                     VStr "secretsmanager:DescribeSecret";
                     VStr "secretsmanager:ListSecretVersionIds"]) /\
      item "Resource" stmt = Some (VList [VStr "*"]) /\
      mentions (secret_name "RDS") stmt = false) /\
    (ready w = true -> r = inr tt).
Proof.
  intros Hlen Hes.
  destruct (GhostStack_init_effects w id env Hlen)
    as (r & st & Hrun & _ & _ & Hsa & Hpol & _ & _ & _ & _ & _ & _ & Hready).
  rewrite Hes in Hsa, Hpol.
  exists r, st. split; [exact Hrun |]. split; [| exact Hready].
  do 4 eexists. split; [exact Hsa |]. split; [exact Hpol |].
  repeat split.
Qed.

Lemma secrets_policy_allows_wildcard_witness :
  exists r st,
    GhostStack_init w_full "GhostStack" sample_env empty_app
      = (r, st) /\
    (exists sa name ns stmt,
      service_accounts st = [(sa, name, ns)] /\
      policies st = [(sa, stmt)] /\
      item "Effect" stmt = Some (VStr "Allow") /\
      item "Action" stmt =
        Some (VList [VStr "secretsmanager:GetResourcePolicy";
                     VStr "secretsmanager:GetSecretValue";
                     VStr "secretsmanager:DescribeSecret";
                     VStr "secretsmanager:ListSecretVersionIds"]) /\
      item "Resource" stmt = Some (VList [VStr "*"]) /\
      mentions (secret_name "RDS") stmt = false) /\
    (ready w_full = true -> r = inr tt).
Proof.
  apply (secrets_policy_allows_wildcard w_full "GhostStack"
           sample_env).
  - vm_compute. lia.
  - vm_compute. reflexivity.
Defined.

(** ** The database *)

(** The tree at the [IndexError] of line 60, with exactly one private
    subnet. *)
Lemma GhostStack_init_one_subnet
      (w : World) (id : string) (env : Environment) :
  length (private_subnets w) = 1%nat ->
  GhostStack_init w id env empty_app =
  (inl IndexError,
   {| stack := Some (id, env);
      children :=
        [Vpc_from_lookup "VPC" "EKSClusterStack/VPC";
         SecurityGroup "Ghost-DB-SG" "VPC" true;
         DatabaseInstance "RDS" (ghost_rds_props "VPC" (SG "Ghost-DB-SG"));
         OpenIdConnectProvider_import "EKSClusterOIDCProvider"
           (import_value "EKSClusterOIDCProviderARN")];
      rules := []; policies := []; dependencies := [];
      synthesized := false |}).
Proof.
  intros Hlen. unfold GhostStack_init, new_DatabaseInstance.
  destruct (private_subnets w) as [| s0 [| s1 rest]];
    [discriminate Hlen | reflexivity | discriminate Hlen].
Qed.

(** C10. For every combination of the two flags, the constructor (given
    a VPC with at least one private subnet, which the database needs)
    creates exactly one database instance, always with the same
    attributes: deletion protection off, removal policy destroy,
    single-AZ, allocated storage 20, MySQL 8.0.25, user name "root",
    database name "ghost", and one security group, the [Ghost-DB-SG] group
    created just before it.  This is in the tree whether the run then
    returns, as a ready run does, or raises. *)
Theorem one_database_fixed_attributes
        (w : World) (id : string) (env : Environment) :
  (1 <= length (private_subnets w))%nat ->
  exists r st,
    GhostStack_init w id env empty_app = (r, st) /\
    (exists db props,
      databases st = [(db, props)] /\
      deletion_protection props = false /\
      removal_policy props = DESTROY /\
      multi_az props = false /\
      allocated_storage props = 20 /\
      engine props = mysql VER_8_0_25 /\
      credentials props = from_username "root" /\
      database_name props = "ghost" /\
      security_groups props = [SG "Ghost-DB-SG"] /\
      In "Ghost-DB-SG" (created_security_groups st)) /\
    (ready w = true -> r = inr tt).
Proof.
  intros Hlen.
  destruct (Nat.eq_dec (length (private_subnets w)) 1%nat) as [Hone | Hmore].
  - rewrite (GhostStack_init_one_subnet w id env Hone).
    do 2 eexists. split; [reflexivity |]. split.
    + do 2 eexists. repeat split. simpl. tauto.
    + unfold ready. destruct (private_subnets w) as [| s0 [| s1 rest]];
        try discriminate.
  - assert (Htwo : (2 <= length (private_subnets w))%nat) by lia.
    destruct (GhostStack_init_effects w id env Htwo)
      as (r & st & Hrun & _ & Hdb & _ & _ & _ & Hsg & _ & _ & _ & _ & Hready).
    exists r, st. split; [exact Hrun |]. split; [| exact Hready].
    do 2 eexists. split; [exact Hdb |]. repeat split.
    rewrite Hsg. simpl. tauto.
Qed.

Lemma one_database_fixed_attributes_witness :
  exists r st,
    GhostStack_init w_full "GhostStack" sample_env empty_app = (r, st) /\
    (exists db props,
      databases st = [(db, props)] /\
      deletion_protection props = false /\
      removal_policy props = DESTROY /\
      multi_az props = false /\
      allocated_storage props = 20 /\
      engine props = mysql VER_8_0_25 /\
      credentials props = from_username "root" /\
      database_name props = "ghost" /\
      security_groups props = [SG "Ghost-DB-SG"] /\
      In "Ghost-DB-SG" (created_security_groups st)) /\
    (ready w_full = true -> r = inr tt).
Proof.
  apply (one_database_fixed_attributes w_full "GhostStack" sample_env).
  vm_compute. lia.
Defined.

(** ** Ordering of the secret-mapping manifest *)

(** C3, as stated, fails: with both features on, the secret-mapping
    manifest mentions the secret of database [RDS], yet no chain of
    declared dependency edges leads from it to [RDS]. *)
Lemma secret_mapping_has_no_edge_to_database :
  exists st,
    GhostStack_init w_full "GhostStack" sample_env empty_app = (inr tt, st) /\
    ~ secret_consumers_ordered_by_edges w_full st.
Proof.
  eexists; split; [vm_compute; reflexivity |].
  intros Hc.
  destruct (Hc "GhostExternalSecret" (external_secret_manifest "RDS")
               "RDS" (ghost_rds_props "VPC" (SG "Ghost-DB-SG")))
    as [Hdb _].
  - simpl. tauto.
  - simpl. tauto.
  - reflexivity.
  - apply ordered_after_target in Hdb. destruct Hdb as [c Hin].
    simpl in Hin. intuition congruence.
Qed.

(** C3, amended. In a run that completes, the secret-mapping manifest
    [GhostExternalSecret] exists once and mentions the generated secret of
    the database [RDS], and it is the only manifest that mentions the
    secret of a database of the stack; it is created after that database
    and no chain of declared dependency edges leads from it to the
    database; its declared dependencies are exactly the secret-sync chart
    when the external-secrets feature is on (so it is ordered after the
    chart by an explicit edge), and none when it is off. *)
Theorem secret_mapping_ordering
        (w : World) (id : string) (env : Environment) :
  ready w = true ->
  exists st,
    GhostStack_init w id env empty_app = (inr tt, st) /\
    (exists m props,
       manifests_named "GhostExternalSecret" st = [m] /\
       databases st = [("RDS", props)] /\
       mentions (secret_name "RDS") m = true) /\
    created_before "RDS" "GhostExternalSecret" st = true /\
    ~ ordered_after st "GhostExternalSecret" "RDS" /\
    depends_on "GhostExternalSecret" st =
      (if deploy_external_secrets w then ["external-secrets"] else []) /\
    (deploy_external_secrets w = true ->
     ordered_after st "GhostExternalSecret" "external-secrets") /\
    (forall n m db props,
       In (KubernetesManifest n m) (children st) ->
       In (DatabaseInstance db props) (children st) ->
       mentions (secret_name db) m = true ->
       n = "GhostExternalSecret" /\ db = "RDS").
Proof.
  intros H. run_ready w id env H.
  destruct (deploy_external_secrets w);
    (split; [do 2 eexists; repeat split |]);
    (split; [reflexivity |]);
    (split; [intros Ho; apply ordered_after_target in Ho;
             destruct Ho as [c Hin]; cbn [app In dependencies] in Hin;
             in_cases Hin |]);
    (split; [reflexivity |]);
    (split; [intros Hes; try discriminate Hes;
             apply after_edge; simpl; tauto |]);
    intros n m db props Hn Hdb Hm;
    cbn [app In] in Hn, Hdb;
    in_cases Hdb; injection Hdb as <- <-;
    in_cases Hn; injection Hn as <- <-;
    try (rewrite ?Hmdep, ?Hmsvc, ?Hming in Hm); try discriminate Hm;
    split; reflexivity.
Qed.

Lemma secret_mapping_ordering_witness :
  exists st,
    GhostStack_init w_full "GhostStack" sample_env empty_app = (inr tt, st) /\
    (exists m props,
       manifests_named "GhostExternalSecret" st = [m] /\
       databases st = [("RDS", props)] /\
       mentions (secret_name "RDS") m = true) /\
    created_before "RDS" "GhostExternalSecret" st = true /\
    ~ ordered_after st "GhostExternalSecret" "RDS" /\
    depends_on "GhostExternalSecret" st =
      (if deploy_external_secrets w_full then ["external-secrets"] else []) /\
    (deploy_external_secrets w_full = true ->
     ordered_after st "GhostExternalSecret" "external-secrets") /\
    (forall n m db props,
       In (KubernetesManifest n m) (children st) ->
       In (DatabaseInstance db props) (children st) ->
       mentions (secret_name db) m = true ->
       n = "GhostExternalSecret" /\ db = "RDS").
Proof.
  apply (secret_mapping_ordering w_full "GhostStack" sample_env).
  vm_compute. reflexivity.
Defined.

(** ** Reasoning about a run step by step *)

Lemma hoare_bind {A B : Type} (P : App -> Prop) (m : M A) (k : A -> M B)
      (R : A -> App -> Prop) (Q : B -> App -> Prop) (E : exn -> App -> Prop) :
  hoare P m R E ->
  (forall a, hoare (R a) (k a) Q E) ->
  hoare P (bind m k) Q E.
Proof.
  intros Hm Hk s Hs. unfold bind. specialize (Hm s Hs).
  destruct (m s) as [[e | a] s1]; [exact Hm | exact (Hk a s1 Hm)].
Qed.

Lemma hoare_ret {A : Type} (a : A) (P : App -> Prop)
      (Q : A -> App -> Prop) (E : exn -> App -> Prop) :
  (forall s, P s -> Q a s) -> hoare P (ret a) Q E.
Proof. intros H s Hs. exact (H s Hs). Qed.

Lemma hoare_raise {A : Type} (e : exn) (P : App -> Prop)
      (Q : A -> App -> Prop) (E : exn -> App -> Prop) :
  (forall s, P s -> E e s) -> hoare P (raise e) Q E.
Proof. intros H s Hs. exact (H s Hs). Qed.

Lemma hoare_weaken {A : Type} (P P' : App -> Prop) (m : M A)
      (Q Q' : A -> App -> Prop) (E E' : exn -> App -> Prop) :
  hoare P' m Q' E' ->
  (forall s, P s -> P' s) ->
  (forall a s, Q' a s -> Q a s) ->
  (forall e s, E' e s -> E e s) ->
  hoare P m Q E.
Proof.
  intros Hm HP HQ HE s Hs. specialize (Hm s (HP s Hs)).
  destruct (m s) as [[e | a] s1]; [exact (HE e s1 Hm) | exact (HQ a s1 Hm)].
Qed.

Lemma hoare_pure {A : Type} (F : Prop) (P : App -> Prop) (m : M A)
      (Q : A -> App -> Prop) (E : exn -> App -> Prop) :
  (F -> hoare P m Q E) -> hoare (fun s => P s /\ F) m Q E.
Proof. intros H s [Hs HF]. exact (H HF s Hs). Qed.

(** The calls that only add to the tree never raise and keep the
    registered stack. *)
Lemma hoare_new_stack (id : string) (env : Environment)
      (E : exn -> App -> Prop) :
  hoare (fun _ => True) (new_stack id env) (fun _ => has_stack id env) E.
Proof. intros [st ch rs ps ds sy] _. reflexivity. Qed.

Lemma hoare_add_child (id : string) (env : Environment) (c : Construct)
      (E : exn -> App -> Prop) :
  hoare (has_stack id env) (add_child c) (fun _ => has_stack id env) E.
Proof. intros [st ch rs ps ds sy] Hs. exact Hs. Qed.

Lemma hoare_allow_from (id : string) (env : Environment)
      (sg other : SecurityGroupRef) (p : Port) (E : exn -> App -> Prop) :
  hoare (has_stack id env) (allow_from sg other p)
        (fun _ => has_stack id env) E.
Proof. intros [st ch rs ps ds sy] Hs. exact Hs. Qed.

Lemma hoare_add_to_policy (id : string) (env : Environment)
      (sa : string) (stmt : pyval) (E : exn -> App -> Prop) :
  hoare (has_stack id env) (add_to_policy sa stmt)
        (fun _ => has_stack id env) E.
Proof. intros [st ch rs ps ds sy] Hs. exact Hs. Qed.

Lemma hoare_add_dependency (id : string) (env : Environment)
      (node dep : string) (E : exn -> App -> Prop) :
  hoare (has_stack id env) (add_dependency node dep)
        (fun _ => has_stack id env) E.
Proof. intros [st ch rs ps ds sy] Hs. exact Hs. Qed.

(** The calls that can raise: none of them raises [NameError]. *)
Lemma hoare_new_DatabaseInstance (id : string) (env : Environment)
      (w : World) (db : string) (props : DatabaseInstanceProps) :
  hoare (has_stack id env) (new_DatabaseInstance w db props)
        (fun _ => has_stack id env)
        (fun e s => has_stack id env s /\ is_NameError e = false).
Proof.
  unfold new_DatabaseInstance. destruct (private_subnets w).
  - intros s Hs. split; [exact Hs | reflexivity].
  - apply hoare_add_child.
Qed.

Lemma hoare_subnet (id : string) (env : Environment) (o : option string) :
  hoare (has_stack id env) (or_raise IndexError o)
        (fun _ => has_stack id env)
        (fun e s => has_stack id env s /\ is_NameError e = false).
Proof. destruct o as [x |]; intros s Hs; simpl; auto. Qed.

Lemma hoare_cluster_security_group_of (id : string) (env : Environment)
      (attrs : ClusterAttributes) :
  hoare (has_stack id env) (cluster_security_group_of attrs)
        (fun _ => has_stack id env)
        (fun e s => has_stack id env s /\ is_NameError e = false).
Proof.
  unfold cluster_security_group_of.
  destruct (cluster_security_group_id attrs); intros s Hs; simpl; auto.
Qed.

Lemma hoare_add_manifest (id : string) (env : Environment)
      (n : string) (m : pyval) :
  hoare (has_stack id env) (add_manifest n m)
        (fun _ => has_stack id env)
        (fun e s => has_stack id env s /\ is_NameError e = false).
Proof.
  destruct m; try (intros ? Hs; split; [exact Hs | reflexivity]).
  apply hoare_add_child.
Qed.

Lemma hoare_yaml_load (id : string) (env : Environment)
      (w : World) (file : string) :
  hoare (has_stack id env) (yaml_load w file)
        (fun _ => has_stack id env)
        (fun e s => has_stack id env s /\ is_NameError e = false).
Proof.
  intros s Hs. unfold yaml_load.
  destruct (documents w !! file) as [[[] | doc] |]; simpl; auto.
Qed.

(** One statement of the constructor, then the rest. *)
Ltac hoare_op :=
  first [ apply hoare_add_child | apply hoare_allow_from
        | apply hoare_add_to_policy | apply hoare_add_dependency
        | apply hoare_new_DatabaseInstance | apply hoare_subnet
        | apply hoare_cluster_security_group_of | apply hoare_add_manifest
        | apply hoare_yaml_load ].

Ltac hoare_step :=
  cbv beta zeta;
  first [ eapply hoare_bind; [hoare_op | intros ?] | hoare_op ].

(** From any tree, the constructor registers its stack first and keeps it
    registered whether it returns or raises, and it never raises
    [NameError]: the chart variable bound under the flag test of line 63
    is only read under the same test at line 185. *)
Lemma GhostStack_init_hoare (w : World) (id : string) (env : Environment) :
  hoare (fun _ => True) (GhostStack_init w id env)
        (fun _ => has_stack id env)
        (fun e s => has_stack id env s /\ is_NameError e = false).
Proof.
  unfold GhostStack_init.
  eapply hoare_bind; [apply hoare_new_stack | intros ?].
  do 7 hoare_step.
  cbv beta zeta.
  eapply hoare_bind with
    (R := fun chart s =>
            has_stack id env s /\
            (eq_True (try_get_context w "deploy_external_secrets") = true ->
             chart = Some "external-secrets")).
  { destruct (eq_True (try_get_context w "deploy_external_secrets")).
    - do 3 hoare_step. apply hoare_ret.
      intros s Hs. split; [exact Hs | reflexivity].
    - apply hoare_ret. intros s Hs. split; [exact Hs | discriminate]. }
  intros chart. apply hoare_pure. intros Hchart.
  eapply hoare_bind with (R := fun _ => has_stack id env).
  { destruct (eq_True (try_get_context w "deploy_sgp")).
    - do 3 hoare_step.
    - do 2 hoare_step. }
  intros ?. hoare_step.
  eapply hoare_bind with (R := fun _ => has_stack id env).
  { destruct (eq_True (try_get_context w "deploy_external_secrets")).
    - rewrite (Hchart eq_refl). hoare_step.
    - apply hoare_ret. auto. }
  intros ?. do 7 hoare_step.
Qed.

Lemma GhostStack_init_stack (w : World) (id : string) (env : Environment)
      (s : App) :
  stack (snd (GhostStack_init w id env s)) = Some (id, env).
Proof.
  pose proof (GhostStack_init_hoare w id env s I) as H.
  destruct (GhostStack_init w id env s) as [[e | u] st]; simpl.
  - exact (proj1 H).
  - exact H.
Qed.

(** ** Account and region resolution *)

Example strip_samples :
  strip "  eu-west-1 " = "eu-west-1" /\ strip "   " = "" /\ strip "" = "" /\
  strip (String (ascii_of_nat 194) (String (ascii_of_nat 160) "")) = "" /\
  strip (String (ascii_of_nat 226) (String (ascii_of_nat 128)
           (String (ascii_of_nat 131) "x "))) = "x".
Proof. repeat split. Qed.

(** [app.synth()] after a computation changes nothing in the tree but
    the synthesized mark. *)
Lemma then_synth_same_tree {A : Type} (w : World) (m : M A) (s : App) :
  same_tree (snd (m s)) (snd (bind m (fun _ => synth w) s)).
Proof.
  unfold bind, same_tree.
  destruct (m s) as [[e | a] [st ch rs ps ds sy]]; simpl;
    [repeat split |].
  destruct st as [[i env] |]; [| repeat split].
  destruct (parses_environment w (env_account env) (env_region env));
    repeat split.
Qed.

(** A constructor that returns, followed by [app.synth()] on an
    environment the engine parses. *)
Lemma then_synth_returns (w : World) (id : string) (env : Environment)
      (s s1 : App) :
  GhostStack_init w id env s = (inr tt, s1) ->
  parses_environment w (env_account env) (env_region env) = true ->
  exists st,
    bind (GhostStack_init w id env) (fun _ => synth w) s = (inr tt, st) /\
    synthesized st = true.
Proof.
  intros Hrun Hp. unfold bind. rewrite Hrun.
  pose proof (GhostStack_init_stack w id env s) as Hst.
  rewrite Hrun in Hst. simpl in Hst.
  destruct s1 as [st ch rs ps ds sy]. simpl in Hst. subst st.
  simpl. rewrite Hp. eexists. split; reflexivity.
Qed.

(** The two resolution blocks, for blank and for non-blank values. *)
Lemma main_resolved_blank (w : World) (a r da dr : string) :
  context w !! "account" = Some (VStr a) -> strip a = "" ->
  context w !! "region" = Some (VStr r) -> strip r = "" ->
  environ w !! "CDK_DEFAULT_ACCOUNT" = Some da ->
  environ w !! "CDK_DEFAULT_REGION" = Some dr ->
  main w empty_app =
  bind (GhostStack_init w "GhostStack"
          (mkEnvironment (default da (environ w !! "CDK_DEPLOY_ACCOUNT"))
                         (default dr (environ w !! "CDK_DEPLOY_REGION"))))
       (fun _ => synth w) empty_app.
Proof.
  intros Ha Hsa Hr Hsr Hda Hdr.
  unfold main, try_get_context, environ_getitem, environ_get.
  rewrite Ha, Hr, Hda, Hdr.
  change (default VNone (Some ?v)) with v.
  cbv iota. rewrite Hsa, Hsr. reflexivity.
Qed.

Lemma main_resolved_nonblank (w : World) (a r : string) :
  context w !! "account" = Some (VStr a) -> strip a <> "" ->
  context w !! "region" = Some (VStr r) -> strip r <> "" ->
  main w empty_app =
  bind (GhostStack_init w "GhostStack" (mkEnvironment a r))
       (fun _ => synth w) empty_app.
Proof.
  intros Ha Hsa Hr Hsr.
  unfold main, try_get_context. rewrite Ha, Hr.
  change (default VNone (Some ?v)) with v. cbv iota.
  apply String.eqb_neq in Hsa, Hsr. rewrite Hsa, Hsr. reflexivity.
Qed.

(** What a run of the script leaves and how it ends, once the account
    and the region are resolved to [env]: the stack [GhostStack] is
    registered with [env] whatever happens next, and a ready run whose
    environment the engine parses returns with the tree synthesized. *)
Lemma main_with_environment (w : World) (env : Environment) :
  main w empty_app =
    bind (GhostStack_init w "GhostStack" env) (fun _ => synth w) empty_app ->
  exists r st,
    main w empty_app = (r, st) /\
    stack st = Some ("GhostStack", env) /\
    (ready w = true ->
     parses_environment w (env_account env) (env_region env) = true ->
     r = inr tt /\ synthesized st = true).
Proof.
  intros Hmain. rewrite Hmain.
  destruct (bind (GhostStack_init w "GhostStack" env) (fun _ => synth w)
                 empty_app) as [r st] eqn:Hrun.
  exists r, st. split; [reflexivity |]. split.
  - pose proof (then_synth_same_tree w
                  (GhostStack_init w "GhostStack" env) empty_app) as Hsame.
    rewrite Hrun in Hsame. destruct Hsame as [Hstack _]. simpl in Hstack.
    rewrite <- Hstack. apply GhostStack_init_stack.
  - intros Hready Hp.
    destruct (ready_inv w Hready)
      as (s0 & s1 & dep & svc & ing & H0 & H1 & Hsgp & Hd & Hs & Hi).
    pose proof (GhostStack_init_run w "GhostStack" env s0 s1 dep svc ing
                  H0 H1 Hsgp Hd Hs Hi) as Hinit.
    destruct (then_synth_returns w _ _ _ _ Hinit Hp) as (st' & Hret & Hsyn).
    rewrite Hret in Hrun. injection Hrun as <- <-. split; [reflexivity | exact Hsyn].
Qed.

(** With a blank [account] and [region] in the context (empty or white
    space only) and both default variables exported, the constructor is
    called with the deploy variables where they are set and the default
    ones otherwise; a ready run whose environment the engine parses
    returns with the tree synthesized. *)
Lemma main_blank_config_falls_back
      (w : World) (a r da dr : string) :
  context w !! "account" = Some (VStr a) -> strip a = "" ->
  context w !! "region" = Some (VStr r) -> strip r = "" ->
  environ w !! "CDK_DEFAULT_ACCOUNT" = Some da ->
  environ w !! "CDK_DEFAULT_REGION" = Some dr ->
  exists res st,
    main w empty_app = (res, st) /\
    stack st =
      Some ("GhostStack",
            mkEnvironment (default da (environ w !! "CDK_DEPLOY_ACCOUNT"))
                          (default dr (environ w !! "CDK_DEPLOY_REGION"))) /\
    (ready w = true ->
     parses_environment w
       (default da (environ w !! "CDK_DEPLOY_ACCOUNT"))
       (default dr (environ w !! "CDK_DEPLOY_REGION")) = true ->
     res = inr tt /\ synthesized st = true).
Proof.
  intros Ha Hsa Hr Hsr Hda Hdr.
  exact (main_with_environment w _
           (main_resolved_blank w a r da dr Ha Hsa Hr Hsr Hda Hdr)).
Qed.

(** A non-blank [account] and [region] in the context reach the
    constructor exactly as they are written, white space included, and
    the environment variables play no part in the run; a ready run whose
    environment the engine parses returns with the tree synthesized. *)
Lemma main_config_wins (w : World) (a r : string) :
  context w !! "account" = Some (VStr a) -> strip a <> "" ->
  context w !! "region" = Some (VStr r) -> strip r <> "" ->
  (exists res st,
     main w empty_app = (res, st) /\
     stack st = Some ("GhostStack", mkEnvironment a r) /\
     (ready w = true -> parses_environment w a r = true ->
      res = inr tt /\ synthesized st = true)) /\
  (forall environ',
     main (mkWorld (context w) environ' (private_subnets w) (documents w)
                   (parses_environment w)) empty_app
     = main w empty_app).
Proof.
  intros Ha Hsa Hr Hsr. split.
  - exact (main_with_environment w _
             (main_resolved_nonblank w a r Ha Hsa Hr Hsr)).
  - intros environ'.
    rewrite (main_resolved_nonblank w a r Ha Hsa Hr Hsr).
    rewrite (main_resolved_nonblank
               (mkWorld (context w) environ' (private_subnets w)
                        (documents w) (parses_environment w))
               a r Ha Hsa Hr Hsr).
    reflexivity.
Qed.

(** A blank [account] with [CDK_DEFAULT_ACCOUNT] unset stops the run
    before anything is built, whatever [CDK_DEPLOY_ACCOUNT] holds. *)
Lemma main_no_default_account_aborts (w : World) (a : string) :
  context w !! "account" = Some (VStr a) -> strip a = "" ->
  environ w !! "CDK_DEFAULT_ACCOUNT" = None ->
  main w empty_app = (inl (KeyError "CDK_DEFAULT_ACCOUNT"), empty_app).
Proof.
  intros Ha Hsa Hda.
  unfold main, try_get_context, environ_getitem.
  rewrite Ha, Hda.
  change (default VNone (Some ?v)) with v.
  cbv iota. rewrite Hsa. reflexivity.
Qed.

(** An [account] key that is not set stops the run at [.strip()]. *)
Lemma main_unset_account_aborts (w : World) :
  context w !! "account" = None ->
  main w empty_app = (inl AttributeError, empty_app).
Proof.
  intros Ha. unfold main, try_get_context.
  rewrite Ha. reflexivity.
Qed.

(** C6, at the failing inputs.  With a blank account and region and only
    [CDK_DEPLOY_ACCOUNT] and [CDK_DEPLOY_REGION] exported, the run does not
    use the deploy variables: it stops with [KeyError] on
    [CDK_DEFAULT_ACCOUNT], exit status 1, nothing built.  With the
    [account] key missing from the context and all four variables exported,
    it stops with [AttributeError], nothing built, instead of falling back
    to the environment. *)
Theorem fallback_aborts_instead_of_using_deploy_variables :
  main w_deploy_only empty_app
    = (inl (KeyError "CDK_DEFAULT_ACCOUNT"), empty_app) /\
  exit_status (main w_deploy_only empty_app) = 1 /\
  main w_no_keys empty_app = (inl AttributeError, empty_app) /\
  exit_status (main w_no_keys empty_app) = 1.
Proof. repeat split. Qed.

Lemma main_blank_config_falls_back_witness :
  exists res st,
    main w_blank_mixed empty_app = (res, st) /\
    stack st =
      Some ("GhostStack",
            mkEnvironment
              (default "111122223333"
                 (environ w_blank_mixed !! "CDK_DEPLOY_ACCOUNT"))
              (default "eu-west-1"
                 (environ w_blank_mixed !! "CDK_DEPLOY_REGION"))) /\
    (ready w_blank_mixed = true ->
     parses_environment w_blank_mixed
       (default "111122223333"
          (environ w_blank_mixed !! "CDK_DEPLOY_ACCOUNT"))
       (default "eu-west-1"
          (environ w_blank_mixed !! "CDK_DEPLOY_REGION")) = true ->
     res = inr tt /\ synthesized st = true).
Proof.
  apply (main_blank_config_falls_back w_blank_mixed "  " ""
           "111122223333" "eu-west-1");
    vm_compute; reflexivity.
Defined.

Lemma main_config_wins_witness :
  (exists res st,
     main w_configured empty_app = (res, st) /\
     stack st
       = Some ("GhostStack", mkEnvironment " 999988887777" "ap-south-1 ") /\
     (ready w_configured = true ->
      parses_environment w_configured " 999988887777" "ap-south-1 " = true ->
      res = inr tt /\ synthesized st = true)) /\
  (forall environ',
     main (mkWorld (context w_configured) environ'
                   (private_subnets w_configured) (documents w_configured)
                   (parses_environment w_configured)) empty_app
     = main w_configured empty_app).
Proof.
  apply (main_config_wins w_configured " 999988887777" "ap-south-1 ").
  - vm_compute. reflexivity.
  - vm_compute. discriminate.
  - vm_compute. reflexivity.
  - vm_compute. discriminate.
Defined.

Lemma main_no_default_account_aborts_witness :
  main w_deploy_only empty_app
    = (inl (KeyError "CDK_DEFAULT_ACCOUNT"), empty_app).
Proof.
  apply (main_no_default_account_aborts w_deploy_only "");
    vm_compute; reflexivity.
Defined.

(** An [account] context value that is not a string (unset, null, a
    number, a boolean, a list, a dictionary) stops the run with
    [AttributeError] before anything is built, whatever the environment
    holds. *)
Lemma main_nonstring_account_aborts (w : World) :
  (forall s, try_get_context w "account" <> VStr s) ->
  main w empty_app = (inl AttributeError, empty_app).
Proof.
  intros Hns. unfold main.
  destruct (try_get_context w "account") as [| b | n | s | l | d | []];
    try reflexivity.
  exfalso. exact (Hns s eq_refl).
Qed.

Lemma main_nonstring_account_aborts_witness :
  main w_numeric_account empty_app = (inl AttributeError, empty_app).
Proof.
  apply (main_nonstring_account_aborts w_numeric_account).
  intros s. vm_compute. discriminate.
Defined.

(** ** Failures inside the constructor *)

(** With fewer than two private subnets the constructor raises before the
    cluster is imported and before either flag is read.  With none, the
    database cannot be placed and the [RuntimeError] of line 30 leaves only
    the VPC lookup and the database security group in the tree; with one,
    the [IndexError] of line 60 leaves the database and the OIDC provider
    there as well. *)
Theorem GhostStack_init_few_subnets
        (w : World) (id : string) (env : Environment) :
  (length (private_subnets w) < 2)%nat ->
  GhostStack_init w id env empty_app =
  match private_subnets w with
  | [] =>
      (inl (RuntimeError "DatabaseInstance"),
       {| stack := Some (id, env);
          children :=
            [Vpc_from_lookup "VPC" "EKSClusterStack/VPC";
             SecurityGroup "Ghost-DB-SG" "VPC" true];
          rules := []; policies := []; dependencies := [];
          synthesized := false |})
  | _ :: _ =>
      (inl IndexError,
       {| stack := Some (id, env);
          children :=
            [Vpc_from_lookup "VPC" "EKSClusterStack/VPC";
             SecurityGroup "Ghost-DB-SG" "VPC" true;
             DatabaseInstance "RDS"
               (ghost_rds_props "VPC" (SG "Ghost-DB-SG"));
             OpenIdConnectProvider_import "EKSClusterOIDCProvider"
               (import_value "EKSClusterOIDCProviderARN")];
          rules := []; policies := []; dependencies := [];
          synthesized := false |})
  end.
Proof.
  intros Hlen. unfold GhostStack_init, new_DatabaseInstance.
  destruct (private_subnets w) as [| s0 [| s1 rest]];
    [reflexivity | reflexivity | simpl in Hlen; lia].
Qed.

Lemma GhostStack_init_few_subnets_witness :
  GhostStack_init w_one_subnet "GhostStack" sample_env empty_app =
  match private_subnets w_one_subnet with
  | [] =>
      (inl (RuntimeError "DatabaseInstance"),
       {| stack := Some ("GhostStack", sample_env);
          children :=
            [Vpc_from_lookup "VPC" "EKSClusterStack/VPC";
             SecurityGroup "Ghost-DB-SG" "VPC" true];
          rules := []; policies := []; dependencies := [];
          synthesized := false |})
  | _ :: _ =>
      (inl IndexError,
       {| stack := Some ("GhostStack", sample_env);
          children :=
            [Vpc_from_lookup "VPC" "EKSClusterStack/VPC";
             SecurityGroup "Ghost-DB-SG" "VPC" true;
             DatabaseInstance "RDS"
               (ghost_rds_props "VPC" (SG "Ghost-DB-SG"));
             OpenIdConnectProvider_import "EKSClusterOIDCProvider"
               (import_value "EKSClusterOIDCProviderARN")];
          rules := []; policies := []; dependencies := [];
          synthesized := false |})
  end.
Proof.
  apply (GhostStack_init_few_subnets w_one_subnet "GhostStack" sample_env).
  vm_compute. lia.
Defined.

(** With two subnets and [deploy_sgp] on, the first of the three files, in
    the order deployment, service, ingress, that does not load to a
    mapping decides the exception: [FileNotFoundError] if it is absent,
    the error of [open] or of the parser if it cannot be read or parsed,
    [TypeError] from [add_manifest] if it loads to something else than a
    mapping.  The secret-mapping manifest is in the tree by then; the
    ingress manifest, the last one, is not. *)
Theorem GhostStack_init_first_unloadable
        (w : World) (id : string) (env : Environment) (file : string) :
  (2 <= length (private_subnets w))%nat ->
  deploy_sgp w = true ->
  first_unloadable w = Some file ->
  exists st,
    GhostStack_init w id env empty_app = (inl (load_error w file), st) /\
    manifests_named "GhostExternalSecret" st
      = [external_secret_manifest "RDS"] /\
    manifests_named "GhostIngressManifest" st = [] /\
    synthesized st = false.
Proof.
  intros Hlen Hsgp Hfile.
  unfold GhostStack_init, new_DatabaseInstance, yaml_load.
  unfold deploy_sgp in Hsgp. rewrite Hsgp.
  destruct (private_subnets w) as [| s0 [| s1 rest]];
    [simpl in Hlen; lia | simpl in Hlen; lia | clear Hlen].
  revert Hfile. unfold first_unloadable, yaml_files, load_error, mapping.
  cbn [find negb].
  destruct (eq_True (try_get_context w "deploy_external_secrets"));
    destruct (documents w !! "ghost-deployment.yaml")
      as [[? | [| | | | | dep | []]] |] eqn:Edep;
    cbn [negb];
    try (intros [= <-]; rewrite Edep; eexists; repeat split);
    destruct (documents w !! "ghost-service.yaml")
      as [[? | [| | | | | svc | []]] |] eqn:Esvc;
    cbn [negb];
    try (intros [= <-]; rewrite Esvc; eexists; repeat split);
    destruct (documents w !! "ghost-ingress.yaml")
      as [[? | [| | | | | ing | []]] |] eqn:Eing;
    cbn [negb];
    try (intros [= <-]; rewrite Eing; eexists; repeat split);
    discriminate.
Qed.

Lemma GhostStack_init_first_unloadable_witness :
  exists st,
    GhostStack_init w_bad_service "GhostStack" sample_env empty_app
      = (inl (load_error w_bad_service "ghost-service.yaml"), st) /\
    manifests_named "GhostExternalSecret" st
      = [external_secret_manifest "RDS"] /\
    manifests_named "GhostIngressManifest" st = [] /\
    synthesized st = false.
Proof.
  apply (GhostStack_init_first_unloadable w_bad_service "GhostStack"
           sample_env "ghost-service.yaml").
  - vm_compute. lia.
  - vm_compute. reflexivity.
  - vm_compute. reflexivity.
Defined.

(** Whatever the world and the tree it starts from, the constructor
    never raises [NameError]: [external_secrets_chart], bound only under
    the flag test of line 63, is read only under the same test at line
    185.  When it raises, its stack is registered already. *)
Theorem GhostStack_init_never_NameError
        (w : World) (id : string) (env : Environment)
        (s st : App) (e : exn) :
  GhostStack_init w id env s = (inl e, st) ->
  is_NameError e = false /\ stack st = Some (id, env).
Proof.
  intros Hrun. pose proof (GhostStack_init_hoare w id env s I) as H.
  rewrite Hrun in H. destruct H as [Hst He]. split; assumption.
Qed.

Lemma GhostStack_init_never_NameError_witness :
  is_NameError (load_error w_bad_service "ghost-service.yaml") = false /\
  stack (snd (GhostStack_init w_bad_service "GhostStack" sample_env
                empty_app))
  = Some ("GhostStack", sample_env).
Proof.
  apply (GhostStack_init_never_NameError w_bad_service "GhostStack"
           sample_env empty_app).
  vm_compute. reflexivity.
Defined.

(** The constructor returns exactly when the VPC has two private subnets,
    [deploy_sgp] is on and the three files load to mappings;
    [deploy_external_secrets] and the environment play no part in
    whether it returns. *)
Theorem GhostStack_init_returns_iff_ready
        (w : World) (id : string) (env : Environment) :
  (exists st, GhostStack_init w id env empty_app = (inr tt, st))
  <-> ready w = true.
Proof.
  split.
  - intros [st Hrun]. exact (GhostStack_init_returns_ready w id env st Hrun).
  - intros H.
    destruct (ready_inv w H)
      as (s0 & s1 & dep & svc & ing & H0 & H1 & Hsgp & Hd & Hs & Hi).
    rewrite (GhostStack_init_run w id env s0 s1 dep svc ing
               H0 H1 Hsgp Hd Hs Hi).
    eexists. reflexivity.
Qed.

(** ** Shape of the finished tree *)

(** [created_before] is transitive and irreflexive. *)
Lemma created_before_trans (a b c : string) (st : App) :
  created_before a b st = true -> created_before b c st = true ->
  created_before a c st = true.
Proof.
  unfold created_before.
  destruct (index_of a (children st)) as [i |]; [| discriminate].
  destruct (index_of b (children st)) as [j |]; [| discriminate].
  destruct (index_of c (children st)) as [k |]; [| discriminate].
  rewrite !Nat.ltb_lt. lia.
Qed.

Lemma created_before_irrefl (a : string) (st : App) :
  created_before a a st = false.
Proof.
  unfold created_before.
  destruct (index_of a (children st)) as [i |]; [| reflexivity].
  apply Nat.ltb_irrefl.
Qed.

(** If every declared edge points to an earlier construct, so does every
    chain of edges. *)
Lemma ordered_after_created_before (st : App) :
  (forall a b, In (a, b) (dependencies st) -> created_before b a st = true) ->
  forall a b, ordered_after st a b -> created_before b a st = true.
Proof.
  intros Hedges a b Hab.
  induction Hab as [a b Hin | a b c Hin _ IH].
  - exact (Hedges a b Hin).
  - exact (created_before_trans c b a st IH (Hedges a b Hin)).
Qed.

(** In a full run every declared dependency, direct or through a chain,
    points from a construct to one created earlier in the same tree (so
    both ends exist), and no construct depends on itself: the declared
    edges form no cycle. *)
Theorem dependencies_point_backwards
        (w : World) (id : string) (env : Environment) :
  ready w = true ->
  exists st,
    GhostStack_init w id env empty_app = (inr tt, st) /\
    (forall a b, ordered_after st a b -> created_before b a st = true) /\
    (forall a, ~ ordered_after st a a).
Proof.
  intros H. run_ready w id env H.
  match goal with
  | |- (forall a b, ordered_after ?st a b -> _) /\ _ =>
      assert (Hchain : forall a b, ordered_after st a b ->
                                   created_before b a st = true)
  end.
  { apply ordered_after_created_before.
    cbn [dependencies].
    destruct (deploy_external_secrets w);
      intros a b Hin; cbn [app In] in Hin; in_cases Hin;
      injection Hin as <- <-; reflexivity. }
  split; [exact Hchain |].
  intros a Ha. apply Hchain in Ha.
  rewrite created_before_irrefl in Ha. discriminate Ha.
Qed.

Lemma dependencies_point_backwards_witness :
  exists st,
    GhostStack_init w_full "GhostStack" sample_env empty_app = (inr tt, st) /\
    (forall a b, ordered_after st a b -> created_before b a st = true) /\
    (forall a, ~ ordered_after st a a).
Proof.
  apply (dependencies_point_backwards w_full "GhostStack" sample_env).
  vm_compute. reflexivity.
Defined.

(** In a full run no two constructs of the stack share a construct id,
    whether [deploy_external_secrets] is on or off. *)
Theorem construct_ids_distinct
        (w : World) (id : string) (env : Environment) :
  ready w = true ->
  exists st,
    GhostStack_init w id env empty_app = (inr tt, st) /\
    NoDup (map construct_id (children st)).
Proof.
  intros H. run_ready w id env H.
  destruct (deploy_external_secrets w);
    cbn [app map construct_id];
    apply (bool_decide_unpack _); vm_compute; exact I.
Qed.

Lemma construct_ids_distinct_witness :
  exists st,
    GhostStack_init w_full "GhostStack" sample_env empty_app = (inr tt, st) /\
    NoDup (map construct_id (children st)).
Proof.
  apply (construct_ids_distinct w_full "GhostStack" sample_env).
  vm_compute. reflexivity.
Defined.

(** When [deploy_external_secrets] is on, the helm chart is wired to the
    service account the script created just before it: same namespace, the
    same service-account name in its values with [create] false, and the
    region of the stack's environment as [AWS_REGION]. *)
Theorem helm_chart_uses_created_service_account
        (w : World) (id : string) (env : Environment) :
  ready w = true ->
  deploy_external_secrets w = true ->
  exists st,
    GhostStack_init w id env empty_app = (inr tt, st) /\
    exists sa name ns cid props,
      service_accounts st = [(sa, name, ns)] /\
      helm_charts st = [(cid, props)] /\
      created_before sa cid st = true /\
      chart_namespace props = ns /\
      path ["serviceAccount"; "name"] (values props) = Some (VStr name) /\
      path ["serviceAccount"; "create"] (values props) = Some (VBool false) /\
      path ["env"; "AWS_REGION"] (values props)
        = Some (VStr (env_region env)).
Proof.
  intros H Hes. run_ready w id env H. rewrite Hes.
  do 5 eexists; repeat split.
Qed.

Lemma helm_chart_uses_created_service_account_witness :
  exists st,
    GhostStack_init w_full "GhostStack" sample_env empty_app = (inr tt, st) /\
    exists sa name ns cid props,
      service_accounts st = [(sa, name, ns)] /\
      helm_charts st = [(cid, props)] /\
      created_before sa cid st = true /\
      chart_namespace props = ns /\
      path ["serviceAccount"; "name"] (values props) = Some (VStr name) /\
      path ["serviceAccount"; "create"] (values props) = Some (VBool false) /\
      path ["env"; "AWS_REGION"] (values props)
        = Some (VStr (env_region sample_env)).
Proof.
  apply (helm_chart_uses_created_service_account w_full "GhostStack"
           sample_env).
  - vm_compute. reflexivity.
  - vm_compute. reflexivity.
Defined.

(** In a full run the cluster is imported exactly once; its kubectl
    subnets are the first two private subnets of the looked-up VPC, in
    order, however many more there are; and it names the OIDC provider
    imported before it. *)
Theorem cluster_import_uses_first_two_subnets
        (w : World) (id : string) (env : Environment) :
  ready w = true ->
  exists st,
    GhostStack_init w id env empty_app = (inr tt, st) /\
    exists cid attrs,
      clusters st = [(cid, attrs)] /\
      kubectl_private_subnet_ids attrs = take 2 (private_subnets w) /\
      created_before (open_id_connect_provider attrs) cid st = true /\
      In (OpenIdConnectProvider_import (open_id_connect_provider attrs)
            (import_value "EKSClusterOIDCProviderARN"))
         (children st).
Proof.
  intros H.
  destruct (ready_inv w H)
    as (s0 & s1 & dep & svc & ing & H0 & H1 & Hsgp & Hd & Hs & Hi).
  rewrite (GhostStack_init_run w id env s0 s1 dep svc ing
             H0 H1 Hsgp Hd Hs Hi).
  assert (Htake : take 2 (private_subnets w) = [s0; s1]).
  { destruct (private_subnets w) as [| x [| y rest]]; try discriminate.
    injection H0 as ->. injection H1 as ->. reflexivity. }
  rewrite Htake.
  generalize (lift (VDict dep)) (lift (VDict svc)) (lift (VDict ing)).
  intros mdep msvc ming.
  eexists; split; [reflexivity |].
  cbn [children].
  destruct (deploy_external_secrets w);
    (do 2 eexists; repeat split; simpl; tauto).
Qed.

Lemma cluster_import_uses_first_two_subnets_witness :
  exists st,
    GhostStack_init w_four_subnets "GhostStack" sample_env empty_app
      = (inr tt, st) /\
    exists cid attrs,
      clusters st = [(cid, attrs)] /\
      kubectl_private_subnet_ids attrs
        = take 2 (private_subnets w_four_subnets) /\
      created_before (open_id_connect_provider attrs) cid st = true /\
      In (OpenIdConnectProvider_import (open_id_connect_provider attrs)
            (import_value "EKSClusterOIDCProviderARN"))
         (children st).
Proof.
  apply (cluster_import_uses_first_two_subnets w_four_subnets
           "GhostStack" sample_env).
  vm_compute. reflexivity.
Defined.

(** In a full run there is one VPC lookup, and every construct that is
    placed in a VPC (the security groups, the database, the cluster) is
    placed in that one; every security group allows all outbound
    traffic. *)
Theorem everything_in_the_looked_up_vpc
        (w : World) (id : string) (env : Environment) :
  ready w = true ->
  exists st vpc,
    GhostStack_init w id env empty_app = (inr tt, st) /\
    omap (fun c => match c with
                   | Vpc_from_lookup v name => Some (v, name)
                   | _ => None
                   end) (children st) = [(vpc, "EKSClusterStack/VPC")] /\
    (forall c v, In c (children st) -> construct_vpc c = Some v -> v = vpc) /\
    (forall g v out, In (SecurityGroup g v out) (children st) -> out = true).
Proof.
  intros H.
  destruct (ready_inv w H)
    as (s0 & s1 & dep & svc & ing & H0 & H1 & Hsgp & Hd & Hs & Hi).
  rewrite (GhostStack_init_run w id env s0 s1 dep svc ing
             H0 H1 Hsgp Hd Hs Hi).
  generalize (lift (VDict dep)) (lift (VDict svc)) (lift (VDict ing)).
  intros mdep msvc ming. do 2 eexists. split; [reflexivity |].
  cbn [children].
  destruct (deploy_external_secrets w);
    (split; [reflexivity |]); split;
    intros; cbn [app In] in *;
    repeat match goal with
           | Hin : _ \/ _ |- _ => destruct Hin as [Hin | Hin]
           | Hin : False |- _ => destruct Hin
           | Hin : _ = SecurityGroup _ _ _ |- _ =>
               first [discriminate Hin | injection Hin as <- <- <-]
           | Hin : ?x = ?c, Hv : construct_vpc ?c = Some _ |- _ =>
               subst c; simpl in Hv; first [discriminate Hv | injection Hv as <-]
           end;
    reflexivity.
Qed.

Lemma everything_in_the_looked_up_vpc_witness :
  exists st vpc,
    GhostStack_init w_full "GhostStack" sample_env empty_app = (inr tt, st) /\
    omap (fun c => match c with
                   | Vpc_from_lookup v name => Some (v, name)
                   | _ => None
                   end) (children st) = [(vpc, "EKSClusterStack/VPC")] /\
    (forall c v, In c (children st) -> construct_vpc c = Some v -> v = vpc) /\
    (forall g v out, In (SecurityGroup g v out) (children st) -> out = true).
Proof.
  apply (everything_in_the_looked_up_vpc w_full "GhostStack" sample_env).
  vm_compute. reflexivity.
Defined.

(** The four parts of the next proof, for one setting of the flag. *)
Ltac resolve_rule :=
  let r := fresh "r" in
  let g := fresh "g" in
  let Hin := fresh "Hin" in
  let Hg := fresh "Hg" in
  intros r g Hin Hg; cbn [In] in Hin;
  destruct Hin as [<- | []];
  destruct Hg as [Hg | Hg];
  first [discriminate Hg | injection Hg as <-; simpl; tauto].

Ltac resolve_database :=
  let Hin := fresh "Hin" in
  let Hg := fresh "Hg" in
  intros ? ? ? Hin Hg; simpl in Hin;
  destruct Hin as [Hin | []]; injection Hin as <- <-;
  simpl in Hg; destruct Hg as [Hg | []]; injection Hg as <-;
  simpl; tauto.

Ltac resolve_group Hmd Hms Hmi :=
  let x := fresh "x" in
  let Hin := fresh "Hin" in
  let Hm := fresh "Hm" in
  let Hx := fresh "Hx" in
  intros ? ? x Hin Hm; cbn [app In] in Hin; in_cases Hin;
  injection Hin as <- <-;
  try (rewrite ?Hmd, ?Hms, ?Hmi in Hm); try discriminate Hm;
  cbv [mentions sgp_manifest existsb snd Token_eqb SecurityGroupRef_eqb
       orb] in Hm;
  destruct (String.eqb x "Ghost-Pod-SG") eqn:Hx;
  try (cbv iota in Hm; discriminate Hm);
  apply String.eqb_eq in Hx; subst x; simpl; tauto.

Ltac resolve_secret Hmd Hms Hmi :=
  let x := fresh "x" in
  let Hin := fresh "Hin" in
  let Hm := fresh "Hm" in
  let Hx := fresh "Hx" in
  intros ? ? x Hin Hm; cbn [app In] in Hin; in_cases Hin;
  injection Hin as <- <-;
  try (rewrite ?Hmd, ?Hms, ?Hmi in Hm); try discriminate Hm;
  destruct (String.eqb x "RDS") eqn:Hx;
  [ apply String.eqb_eq in Hx; subst x; simpl; tauto
  | cbv [mentions external_secret_manifest secret_field existsb snd
         Token_eqb orb] in Hm;
    rewrite Hx in Hm; discriminate Hm ].

(** In a full run nothing refers to a construct that is not there: the
    security groups named by the rule, by the database and by the
    manifests are all created by the stack, and a manifest that mentions a
    generated secret mentions that of a database of the stack. *)
Theorem references_resolve
        (w : World) (id : string) (env : Environment) :
  ready w = true ->
  exists st,
    GhostStack_init w id env empty_app = (inr tt, st) /\
    (forall r g, In r (rules st) ->
       rule_target r = SG g \/ rule_source r = SG g ->
       In g (created_security_groups st)) /\
    (forall db props g, In (db, props) (databases st) ->
       In (SG g) (security_groups props) ->
       In g (created_security_groups st)) /\
    (forall n m g, In (KubernetesManifest n m) (children st) ->
       mentions (security_group_id (SG g)) m = true ->
       In g (created_security_groups st)) /\
    (forall n m db, In (KubernetesManifest n m) (children st) ->
       mentions (secret_name db) m = true ->
       In db (map fst (databases st))).
Proof.
  intros H. run_ready w id env H.
  destruct (deploy_external_secrets w);
    (split; [| split; [| split]]);
    [ resolve_rule | resolve_database
    | resolve_group Hmdep Hmsvc Hming | resolve_secret Hmdep Hmsvc Hming
    | resolve_rule | resolve_database
    | resolve_group Hmdep Hmsvc Hming | resolve_secret Hmdep Hmsvc Hming ].
Qed.

Lemma references_resolve_witness :
  exists st,
    GhostStack_init w_full "GhostStack" sample_env empty_app = (inr tt, st) /\
    (forall r g, In r (rules st) ->
       rule_target r = SG g \/ rule_source r = SG g ->
       In g (created_security_groups st)) /\
    (forall db props g, In (db, props) (databases st) ->
       In (SG g) (security_groups props) ->
       In g (created_security_groups st)) /\
    (forall n m g, In (KubernetesManifest n m) (children st) ->
       mentions (security_group_id (SG g)) m = true ->
       In g (created_security_groups st)) /\
    (forall n m db, In (KubernetesManifest n m) (children st) ->
       mentions (secret_name db) m = true ->
       In db (map fst (databases st))).
Proof.
  apply (references_resolve w_full "GhostStack" sample_env).
  vm_compute. reflexivity.
Defined.

(** ** The region from the script to the chart *)


